(** * brain-react: the user / permission store and its subscriptions

    A shallow embedding of [src/index.ts] (the variant with two-level
    permissions, name -> id -> bit flags) and the properties of its
    subscription and notification core. The variant with one level of
    permissions, the first module of the file, is [Module V1].

    Modelling conventions.
    - A JavaScript object used as a map is an association list of its own
      properties in [Object.keys] order.  Where the code looks a name up in
      the permission map with [in], the names every object inherits from
      [Object.prototype] are found too ([inherited], [scopeValue]).
    - A function value is known by its identity only (a [callback] number):
      [indexOf] compares identities, and calling a callback appends a
      [Call] event to the [trace] of the state.  Callbacks are observers:
      they do not re-enter the module and do not throw.
    - [clone] is the identity: the values of the model are immutable.
    - A promise is known by how it settles: [Resolved], [Rejected] or
      [Pending] (neither [resolve] nor [reject] is ever called). *)

From Stdlib Require Import List String Ascii ZArith Bool Arith Lia.
Import ListNotations.
Local Open Scope string_scope.

Set Implicit Arguments.

(* ================================================================== *)
(** * Part I: definitions *)
(* ================================================================== *)

(** ** JavaScript objects as ordered maps *)

Module Obj.

Definition t (V : Type) : Type := list (string * V).

(** [o[k]] *)
Fixpoint get {V : Type} (o : t V) (k : string) : option V :=
  match o with
  | [] => None
  | (k', v) :: r => if String.eqb k' k then Some v else get r k
  end.

(** [k in o] *)
Definition has {V : Type} (o : t V) (k : string) : bool :=
  match get o k with Some _ => true | None => false end.

(** [o[k] = v]: an existing property keeps its place, a new one goes
    last. *)
Fixpoint set {V : Type} (o : t V) (k : string) (v : V) : t V :=
  match o with
  | [] => [(k, v)]
  | (k', v') :: r =>
      if String.eqb k' k then (k, v) :: r else (k', v') :: set r k v
  end.

(** [delete o[k]] *)
Definition delete {V : Type} (o : t V) (k : string) : t V :=
  filter (fun kv => negb (String.eqb (fst kv) k)) o.

(** [Object.keys(o)] *)
Definition keys {V : Type} (o : t V) : list string := map fst o.

End Obj.

(** ** Numbers, arrays and strings *)

(** [ToInt32] on an integer value. *)
Definition ToInt32 (v : Z) : Z :=
  let m := (v mod 2 ^ 32)%Z in
  if (2 ^ 31 <=? m)%Z then (m - 2 ^ 32)%Z else m.

(** The operator [a & b]. *)
Definition bitand (a b : Z) : Z := Z.land (ToInt32 a) (ToInt32 b).

(** Truthiness of a number. *)
Definition truthy (n : Z) : bool := negb (n =? 0)%Z.

(** Functions are compared by identity. *)
Definition callback : Type := nat.

(** [a.indexOf(f)], [None] for -1. *)
Fixpoint indexOf (a : list callback) (f : callback) : option nat :=
  match a with
  | [] => None
  | g :: r =>
      if Nat.eqb g f then Some 0%nat
      else match indexOf r f with Some i => Some (S i) | None => None end
  end.

(** [a.splice(i, 1)] *)
Fixpoint splice1 (a : list callback) (i : nat) : list callback :=
  match a, i with
  | [], _ => []
  | _ :: r, O => r
  | g :: r, S j => g :: splice1 r j
  end.

(** [a.push(f)] *)
Definition push (a : list callback) (f : callback) : list callback :=
  (a ++ [f])%list.

(** [k.split(':')] *)
Fixpoint split_colon (k : string) : list string :=
  match k with
  | EmptyString => [EmptyString]
  | String c r =>
      if Ascii.eqb c ":"%char then EmptyString :: split_colon r
      else match split_colon r with
           | h :: t => String c h :: t
           | [] => [String c EmptyString]
           end
  end.

(** A destructured element that may be [undefined], used as a property
    name. *)
Definition prop_key (o : option string) : string :=
  match o with Some k => k | None => "undefined" end.

(** [const [name, id] = k.split(':')] *)
Definition splitKey (k : string) : string * string :=
  let parts := split_colon k in
  (prop_key (nth_error parts 0), prop_key (nth_error parts 1)).

(** The template literal [`${name}:${id}`]. *)
Definition fullKey (name id : string) : string := name ++ ":" ++ id.

Definition clone {A : Type} (a : A) : A := a.

(** ** Rights *)

Definition _types : Obj.t Z :=
  [("create", 0x01%Z); ("read", 0x02%Z); ("update", 0x04%Z);
   ("delete", 0x08%Z)].

(** [_types[s]] as an operand of [&]: [undefined] converts to 0. *)
Definition typeBit (s : string) : Z :=
  match Obj.get _types s with Some b => b | None => 0%Z end.

(** [{ create?: true, delete?: true, read?: true, update?: true }] *)
Definition idStruct : Type := Obj.t bool.
(** id -> rights *)
Definition rightsStruct : Type := Obj.t idStruct.
(** name -> id -> rights *)
Definition permissionsStruct : Type := Obj.t rightsStruct.
(** id -> bit flags, as the server sends them *)
Definition rightStruct : Type := Obj.t Z.

(** The innermost loop of [permissionsSet]: the rights of one flags value,
    starting from [{}]. *)
Definition decodeRights (flags : Z) : idStruct :=
  fold_left
    (fun rights s =>
       if truthy (bitand flags (typeBit s)) then Obj.set rights s true
       else rights)
    (Obj.keys _types) [].

(** The loop over the ids of one permission. *)
Definition decodeIds (ids : rightStruct) : rightsStruct :=
  fold_left
    (fun acc id =>
       Obj.set acc id
         (decodeRights (match Obj.get ids id with Some v => v | None => 0%Z end)))
    (Obj.keys ids) [].

(** The loop over the names: the new value of [_permissions]. *)
Definition decodePermissions (list : Obj.t rightStruct) : permissionsStruct :=
  fold_left
    (fun acc name =>
       Obj.set acc name
         (decodeIds (match Obj.get list name with Some ids => ids | None => [] end)))
    (Obj.keys list) [].

(** ** Values and the module state *)

Record userType : Type := mkUser {
  _id : string;
  permissions : option (Obj.t rightStruct);
  fields : Obj.t string
}.

(** The names every object inherits from [Object.prototype]: [k in o]
    holds for them whatever the properties of [o] are. *)
Definition inherited (k : string) : bool :=
  existsb (String.eqb k)
    ["constructor"; "hasOwnProperty"; "isPrototypeOf";
     "propertyIsEnumerable"; "toLocaleString"; "toString"; "valueOf";
     "__defineGetter__"; "__defineSetter__"; "__lookupGetter__";
     "__lookupSetter__"; "__proto__"].

(** What a callback is called with. [{}] is written at the type the place
    gives it. [VInherited path] is what a lookup that leaves the own
    properties reads: the clone of the member of [Object.prototype] found
    along [path] when there is one (the string "Object" for constructor,
    name), [{}] otherwise. *)
Inductive value : Type :=
| VUser (u : option userType)          (* a user, or false *)
| VPermissions (p : permissionsStruct)
| VRightsAll (r : rightsStruct)
| VRights (r : idStruct)
| VInherited (path : list string).

Inductive event : Type :=
| Call (f : callback) (v : value)
| CallNoSession (f : callback)
| CallHandle (h : callback) (code : Z) (msg : string).

Inductive jsval : Type :=
| JUndefined
| JNull
| JBoolean (b : bool)
| JNumber (n : Z)
| JString (s : string)
| JObject
| JFunction (f : callback).

Definition typeof (v : jsval) : string :=
  match v with
  | JUndefined => "undefined"
  | JNull => "object"
  | JBoolean _ => "boolean"
  | JNumber _ => "number"
  | JString _ => "string"
  | JObject => "object"
  | JFunction _ => "function"
  end.

Record state : Type := mkState {
  _user : option userType;
  _userSubscriptions : list callback;
  _permissions : permissionsStruct;
  _permissionsSubscriptions : list callback;
  _rightsSubscriptions : Obj.t (list callback);
  _rightsAllSubscriptions : Obj.t (list callback);
  _noSession : jsval;
  (* the session held by brain *)
  brain_session : option string;
  (* the calls made so far, oldest first *)
  trace : list event
}.

Definition init : state :=
  mkState None [] [] [] [] [] JUndefined None [].

Definition with_user (s : state) (u : option userType) : state :=
  mkState u (_userSubscriptions s) (_permissions s)
    (_permissionsSubscriptions s) (_rightsSubscriptions s)
    (_rightsAllSubscriptions s) (_noSession s) (brain_session s) (trace s).

Definition with_userSubscriptions (s : state) (l : list callback) : state :=
  mkState (_user s) l (_permissions s)
    (_permissionsSubscriptions s) (_rightsSubscriptions s)
    (_rightsAllSubscriptions s) (_noSession s) (brain_session s) (trace s).

Definition with_permissions (s : state) (p : permissionsStruct) : state :=
  mkState (_user s) (_userSubscriptions s) p
    (_permissionsSubscriptions s) (_rightsSubscriptions s)
    (_rightsAllSubscriptions s) (_noSession s) (brain_session s) (trace s).

Definition with_permissionsSubscriptions (s : state) (l : list callback)
  : state :=
  mkState (_user s) (_userSubscriptions s) (_permissions s)
    l (_rightsSubscriptions s)
    (_rightsAllSubscriptions s) (_noSession s) (brain_session s) (trace s).

Definition with_rightsSubscriptions (s : state) (r : Obj.t (list callback))
  : state :=
  mkState (_user s) (_userSubscriptions s) (_permissions s)
    (_permissionsSubscriptions s) r
    (_rightsAllSubscriptions s) (_noSession s) (brain_session s) (trace s).

Definition with_rightsAllSubscriptions (s : state)
  (r : Obj.t (list callback)) : state :=
  mkState (_user s) (_userSubscriptions s) (_permissions s)
    (_permissionsSubscriptions s) (_rightsSubscriptions s)
    r (_noSession s) (brain_session s) (trace s).

Definition with_noSession (s : state) (v : jsval) : state :=
  mkState (_user s) (_userSubscriptions s) (_permissions s)
    (_permissionsSubscriptions s) (_rightsSubscriptions s)
    (_rightsAllSubscriptions s) v (brain_session s) (trace s).

(** [brain.session(token)] *)
Definition with_session (s : state) (t : option string) : state :=
  mkState (_user s) (_userSubscriptions s) (_permissions s)
    (_permissionsSubscriptions s) (_rightsSubscriptions s)
    (_rightsAllSubscriptions s) (_noSession s) t (trace s).

Definition emit (s : state) (e : event) : state :=
  mkState (_user s) (_userSubscriptions s) (_permissions s)
    (_permissionsSubscriptions s) (_rightsSubscriptions s)
    (_rightsAllSubscriptions s) (_noSession s) (brain_session s)
    (trace s ++ [e])%list.

(** [f(v)] *)
Definition invoke (f : callback) (v : value) (s : state) : state :=
  emit s (Call f v).

Inductive error : Type :=
| TypeError
| Error (msg : string).

(** A call that returns [a] or throws, with the state it leaves. *)
Inductive result (A : Type) : Type :=
| Ok (a : A) (s : state)
| Throw (e : error) (s : state).

Arguments Ok {A} a s.
Arguments Throw {A} e s.

Definition state_of {A : Type} (r : result A) : state :=
  match r with Ok _ s => s | Throw _ s => s end.

Definition returned {A : Type} (r : result A) : option A :=
  match r with Ok a _ => Some a | Throw _ _ => None end.

(** ** Promises of the external collaborators *)

(** [responseErrorStruct] of the transport: [handle] is present on an error
    the transport has already dealt with. *)
Record responseErrorStruct : Type := mkError {
  code : Z;
  msg : string;
  handle : option callback
}.

Inductive settled (A : Type) : Type :=
| Resolved (a : A)
| Rejected (e : responseErrorStruct)
| Pending.

Arguments Resolved {A} a.
Arguments Rejected {A} e.
Arguments Pending {A}.

Inductive falsy : Type :=
| FFalse | FNull | FUndefined | FZero | FEmptyString | FNaN.

(** What a request resolves with: the data, or a falsy value. *)
Inductive fetched (A : Type) : Type :=
| Falsy (v : falsy)
| Truthy (a : A).

Arguments Falsy {A} v.
Arguments Truthy {A} a.

Record signinStruct : Type := mkSignin {
  email : string;
  passwd : string;
  portal : option string
}.

Record signinReturn : Type := mkSigninReturn {
  session : string;
  user : userType
}.

Inductive signinUsing : Type :=
| UsingSession (token : string)
| UsingCredentials (c : signinStruct).

(** The closure [unsubscribe] of a returned handle, by the call it makes. *)
Inductive unsubscriber : Type :=
| UnsubPermissions (cb : callback) (name id : option string)
| UnsubUser (cb : callback).

Record permissionSubscribeReturn : Type := mkPSR {
  psr_data : value;
  psr_unsubscribe : unsubscriber
}.

Record subscribeReturn : Type := mkSR {
  sr_data : value;
  sr_unsubscribe : unsubscriber
}.

(** ** The module's functions *)

(** The rights [p] itself holds for a name and an id, [{}] when it holds
    none. *)
Definition rightsOf (p : permissionsStruct) (name id : string) : idStruct :=
  match Obj.get p name with
  | Some ids =>
      match Obj.get ids id with Some r => clone r | None => [] end
  | None => []
  end.

(** The ids and rights [p] itself holds for a name, [{}] when it holds
    none. *)
Definition rightsAllOf (p : permissionsStruct) (name : string)
  : rightsStruct :=
  match Obj.get p name with Some ids => clone ids | None => [] end.

(** [(name in p && id in p[name]) ? clone(p[name][id]) : {}]: the
    operator [in] follows the prototype chain, so a name or an id that
    [Object.prototype] has is found where [p] holds none. *)
Definition scopeValue (p : permissionsStruct) (name id : string) : value :=
  match Obj.get p name with
  | Some ids =>
      match Obj.get ids id with
      | Some r => VRights (clone r)
      | None => if inherited id then VInherited [id] else VRights []
      end
  | None => if inherited name then VInherited [name; id] else VRights []
  end.

(** [name in p ? clone(p[name]) : {}] *)
Definition scopeAllValue (p : permissionsStruct) (name : string) : value :=
  match Obj.get p name with
  | Some ids => VRightsAll (clone ids)
  | None => if inherited name then VInherited [name] else VRightsAll []
  end.

Definition onNoSession (cb : jsval) (s : state) : result unit :=
  if negb (String.eqb (typeof cb) "function") then
    Throw (Error "onNoSession() called with an invalid callback") s
  else
    Ok tt (with_noSession s cb).

Definition permissionsSubscribe (cb : callback) (name id : option string)
  (s : state) : result permissionSubscribeReturn :=
  match name with
  | None =>
      let s1 :=
        with_permissionsSubscriptions s
          (push (_permissionsSubscriptions s) cb) in
      let oPermissions := clone (_permissions s1) in
      let s2 := invoke cb (VPermissions oPermissions) s1 in
      Ok (mkPSR (VPermissions oPermissions) (UnsubPermissions cb None None))
         s2
  | Some name =>
      match id with
      | None =>
          let s1 :=
            if negb (Obj.has (_rightsAllSubscriptions s) name) then
              with_rightsAllSubscriptions s
                (Obj.set (_rightsAllSubscriptions s) name [])
            else s in
          (* _rightsSubscriptions[name].push(callback) *)
          match Obj.get (_rightsSubscriptions s1) name with
          | None => Throw TypeError s1
          | Some l =>
              let s2 :=
                with_rightsSubscriptions s1
                  (Obj.set (_rightsSubscriptions s1) name (push l cb)) in
              let oRights := scopeAllValue (_permissions s2) name in
              let s3 := invoke cb oRights s2 in
              Ok (mkPSR oRights (UnsubPermissions cb (Some name) None)) s3
          end
      | Some id =>
          let sKey := fullKey name id in
          let s1 :=
            if negb (Obj.has (_rightsSubscriptions s) sKey) then
              with_rightsSubscriptions s
                (Obj.set (_rightsSubscriptions s) sKey [])
            else s in
          match Obj.get (_rightsSubscriptions s1) sKey with
          | None => Throw TypeError s1
          | Some l =>
              let s2 :=
                with_rightsSubscriptions s1
                  (Obj.set (_rightsSubscriptions s1) sKey (push l cb)) in
              let oRights := scopeValue (_permissions s2) name id in
              let s3 := invoke cb oRights s2 in
              Ok (mkPSR oRights
                    (UnsubPermissions cb (Some name) (Some id))) s3
          end
      end
  end.

(** ** The variant with one level of permissions

    The first module of [src/index.ts]: a permission is a name with its bit
    flags, [_permissions] maps a name to its rights, and a scoped
    subscription is keyed by the name alone. *)

Module V1.

Record userType : Type := mkUser {
  _id : string;
  permissions : option (Obj.t Z);
  fields : Obj.t string
}.

Inductive value : Type :=
| VUser (u : option userType)
| VPermissions (p : Obj.t idStruct)
| VRights (r : idStruct)
| VInherited (path : list string).

Inductive event : Type :=
| Call (f : callback) (v : value)
| CallNoSession (f : callback)
| CallHandle (h : callback) (code : Z) (msg : string).

Record state : Type := mkState {
  _user : option userType;
  _userSubscriptions : list callback;
  _permissions : Obj.t idStruct;
  _permissionsSubscriptions : list callback;
  _rightsSubscriptions : Obj.t (list callback);
  _noSession : jsval;
  brain_session : option string;
  trace : list event
}.

Definition init : state := mkState None [] [] [] [] JUndefined None [].

Definition with_user (s : state) (u : option userType) : state :=
  mkState u (_userSubscriptions s) (_permissions s)
    (_permissionsSubscriptions s) (_rightsSubscriptions s) (_noSession s)
    (brain_session s) (trace s).

Definition with_userSubscriptions (s : state) (l : list callback) : state :=
  mkState (_user s) l (_permissions s)
    (_permissionsSubscriptions s) (_rightsSubscriptions s) (_noSession s)
    (brain_session s) (trace s).

Definition with_permissions (s : state) (p : Obj.t idStruct) : state :=
  mkState (_user s) (_userSubscriptions s) p
    (_permissionsSubscriptions s) (_rightsSubscriptions s) (_noSession s)
    (brain_session s) (trace s).

Definition with_permissionsSubscriptions (s : state) (l : list callback)
  : state :=
  mkState (_user s) (_userSubscriptions s) (_permissions s)
    l (_rightsSubscriptions s) (_noSession s)
    (brain_session s) (trace s).

Definition with_rightsSubscriptions (s : state) (r : Obj.t (list callback))
  : state :=
  mkState (_user s) (_userSubscriptions s) (_permissions s)
    (_permissionsSubscriptions s) r (_noSession s)
    (brain_session s) (trace s).

Definition with_session (s : state) (t : option string) : state :=
  mkState (_user s) (_userSubscriptions s) (_permissions s)
    (_permissionsSubscriptions s) (_rightsSubscriptions s) (_noSession s)
    t (trace s).

Definition emits (s : state) (es : list event) : state :=
  mkState (_user s) (_userSubscriptions s) (_permissions s)
    (_permissionsSubscriptions s) (_rightsSubscriptions s) (_noSession s)
    (brain_session s) (trace s ++ es)%list.

(** [f(v)] *)
Definition invoke (f : callback) (v : value) (s : state) : state :=
  emits s [Call f v].

Inductive result (A : Type) : Type :=
| Ok (a : A) (s : state)
| Throw (e : error) (s : state).

Arguments Ok {A} a s.
Arguments Throw {A} e s.

Definition state_of {A : Type} (r : result A) : state :=
  match r with Ok _ s => s | Throw _ s => s end.

(** The closure [unsubscribe] of the handle [subscribe] returns, by the
    call it makes. *)
Inductive unsubscriber : Type :=
| UnsubUser (cb : callback).

Record permissionSubscribeReturn : Type := mkPSR {
  psr_data : value;
  psr_unsubscribe : unsubscriber
}.

(** The rights [p] itself holds for a permission, [{}] when it holds
    none. *)
Definition rightsOf (p : Obj.t idStruct) (permission : string) : idStruct :=
  match Obj.get p permission with Some r => clone r | None => [] end.

(** [permission in p ? clone(p[permission]) : {}], the operator [in]
    following the prototype chain. *)
Definition scopeValue (p : Obj.t idStruct) (permission : string) : value :=
  match Obj.get p permission with
  | Some r => VRights (clone r)
  | None => if inherited permission then VInherited [permission] else VRights []
  end.

(** The first loop of [permissionsSet]: the rights of every name. *)
Definition decodePermissions (list : Obj.t Z) : Obj.t idStruct :=
  fold_left
    (fun acc name =>
       Obj.set acc name
         (decodeRights
            (match Obj.get list name with Some v => v | None => 0%Z end)))
    (Obj.keys list) [].

(** The notification of one key of [_rightsSubscriptions]. *)
Definition notifyKey (p : string) (s : state) : state :=
  fold_left
    (fun st f => invoke f (scopeValue (_permissions st) p) st)
    (match Obj.get (_rightsSubscriptions s) p with
     | Some callbacks => callbacks
     | None => []
     end)
    s.

(** [permissionsSet(list)]; [list] is [None] when the caller passes
    [undefined], on which [Object.keys] throws once [_permissions] is
    reset. *)
Definition permissionsSet (list : option (Obj.t Z)) (s : state)
  : result unit :=
  let s0 := with_permissions s [] in
  match list with
  | None => Throw TypeError s0
  | Some list =>
      let s1 := with_permissions s0 (decodePermissions list) in
      let s2 :=
        fold_left
          (fun st f => invoke f (VPermissions (clone (_permissions st))) st)
          (_permissionsSubscriptions s1) s1 in
      Ok tt
        (fold_left (fun st p => notifyKey p st)
           (Obj.keys (_rightsSubscriptions s2)) s2)
  end.

Definition set (u : option userType) (s : state) : state :=
  let s1 := with_user s u in
  fold_left (fun st f => invoke f (VUser (clone (_user st))) st)
    (_userSubscriptions s1) s1.

Definition subscribe (cb : callback) (s : state)
  : result permissionSubscribeReturn :=
  let s1 := with_userSubscriptions s (push (_userSubscriptions s) cb) in
  let oUser := clone (_user s1) in
  let s2 := invoke cb (VUser oUser) s1 in
  Ok (mkPSR (VUser oUser) (UnsubUser cb)) s2.

Definition unsubscribe (cb : callback) (s : state) : bool * state :=
  match indexOf (_userSubscriptions s) cb with
  | Some i =>
      (true, with_userSubscriptions s (splice1 (_userSubscriptions s) i))
  | None => (false, s)
  end.

(** [update()], given how [brain.read('user')] settles. An exception in
    the fulfilment handler leaves the returned promise unsettled. *)
Definition update (read_user : settled (fetched userType)) (s : state)
  : state * settled userType :=
  match read_user with
  | Resolved (Truthy data) =>
      let s1 := set (Some data) s in
      match permissionsSet (permissions data) s1 with
      | Ok _ s2 => (s2, Resolved data)
      | Throw _ s2 => (s2, Pending)
      end
  | Resolved (Falsy _) => (s, Pending)
  | Rejected error =>
      match handle error with
      | Some h =>
          (emits s [CallHandle h (code error) (msg error)], Pending)
      | None => (s, Rejected error)
      end
  | Pending => (s, Pending)
  end.

Definition signout (create_signout : settled bool) (s : state)
  : state * settled bool :=
  match create_signout with
  | Resolved data =>
      let s' :=
        if data then
          state_of (permissionsSet (Some []) (set None (with_session s None)))
        else s in
      (s', Resolved data)
  | Rejected e => (s, Rejected e)
  | Pending => (s, Pending)
  end.

End V1.

Section Store.

(** The id that stands for all the ids of a permission, exported by
    [@ouroboros/brain]. *)
Variable RIGHTS_ALL_ID : string.

Definition permissionsUnsubscribe (cb : callback) (name id : option string)
  (s : state) : bool * state :=
  match name with
  | None =>
      match indexOf (_permissionsSubscriptions s) cb with
      | Some i =>
          (true,
           with_permissionsSubscriptions s
             (splice1 (_permissionsSubscriptions s) i))
      | None => (false, s)
      end
  | Some name =>
      let sID := match id with None => RIGHTS_ALL_ID | Some id => id end in
      let sKey := fullKey name sID in
      match Obj.get (_rightsSubscriptions s) sKey with
      | None => (false, s)
      | Some l =>
          match indexOf l cb with
          | Some i =>
              let l' := splice1 l i in
              let s1 :=
                with_rightsSubscriptions s
                  (Obj.set (_rightsSubscriptions s) sKey l') in
              let s2 :=
                if (List.length l' <=? 0)%nat then
                  with_rightsSubscriptions s1
                    (Obj.delete (_rightsSubscriptions s1) sKey)
                else s1 in
              (true, s2)
          | None => (false, s)
          end
      end
  end.

(** The notification of one key of [_rightsSubscriptions]. *)
Definition notifyKey (k : string) (s : state) : state :=
  fold_left
    (fun st f =>
       let (name, id) := splitKey k in
       invoke f (scopeValue (_permissions st) name id) st)
    (match Obj.get (_rightsSubscriptions s) k with
     | Some callbacks => callbacks
     | None => []
     end)
    s.

Definition permissionsSet (list : Obj.t rightStruct) (s : state) : state :=
  let s1 := with_permissions s (decodePermissions list) in
  let s2 :=
    fold_left
      (fun st f => invoke f (VPermissions (clone (_permissions st))) st)
      (_permissionsSubscriptions s1) s1 in
  fold_left (fun st k => notifyKey k st)
    (Obj.keys (_rightsSubscriptions s2)) s2.

Definition set (u : option userType) (s : state) : state :=
  let s1 := with_user s u in
  fold_left (fun st f => invoke f (VUser (clone (_user st))) st)
    (_userSubscriptions s1) s1.

Definition subscribe (cb : callback) (s : state) : result subscribeReturn :=
  let s1 := with_userSubscriptions s (push (_userSubscriptions s) cb) in
  let oUser := clone (_user s1) in
  let s2 := invoke cb (VUser oUser) s1 in
  Ok (mkSR (VUser oUser) (UnsubUser cb)) s2.

Definition unsubscribe (cb : callback) (s : state) : bool * state :=
  match indexOf (_userSubscriptions s) cb with
  | Some i =>
      (true, with_userSubscriptions s (splice1 (_userSubscriptions s) i))
  | None => (false, s)
  end.

(** Calling the closure of a handle; its result is dropped. *)
Definition callUnsubscribe (u : unsubscriber) (s : state) : state :=
  match u with
  | UnsubPermissions cb name id => snd (permissionsUnsubscribe cb name id s)
  | UnsubUser cb => snd (unsubscribe cb s)
  end.

(** The function given to [body.onNoSession] when the module loads. *)
Definition noSessionHandler (s : state) : result unit :=
  let s1 := with_session s None in
  let s2 := set None s1 in
  let s3 := permissionsSet [] s2 in
  match _noSession s3 with
  | JUndefined => Ok tt s3
  | JFunction f => Ok tt (emit s3 (CallNoSession f))
  | _ => Throw TypeError s3
  end.

(** [update()], given how [brain.read('user')] settles; [s] is the state
    when it settles. The second component is how the returned promise
    settles. *)
Definition update (read_user : settled (fetched userType)) (s : state)
  : state * settled userType :=
  match read_user with
  | Resolved (Truthy data) =>
      let s1 := set (Some data) s in
      let s2 :=
        permissionsSet
          (match permissions data with Some p => p | None => [] end) s1 in
      (s2, Resolved data)
  | Resolved (Falsy _) => (s, Pending)
  | Rejected error =>
      match handle error with
      | Some h => (emit s (CallHandle h (code error) (msg error)), Pending)
      | None => (s, Rejected error)
      end
  | Pending => (s, Pending)
  end.

(** [signout()], given how [brain.create('signout')] settles. *)
Definition signout (create_signout : settled bool) (s : state)
  : state * settled bool :=
  match create_signout with
  | Resolved data =>
      let s' :=
        if data then permissionsSet [] (set None (with_session s None))
        else s in
      (s', Resolved data)
  | Rejected e => (s, Rejected e)
  | Pending => (s, Pending)
  end.

(** [signin(using)], given how [brain.create('signin', using)] and the
    [brain.read('user')] of the nested [update()] settle. *)
Definition signin (using' : signinUsing)
  (create_signin : settled (fetched signinReturn))
  (read_user : settled (fetched userType)) (s : state)
  : state * settled signinReturn :=
  match using' with
  | UsingSession token =>
      let s1 := with_session s (Some token) in
      let (s2, r) := update read_user s1 in
      (s2,
       match r with
       | Resolved u => Resolved (mkSigninReturn token u)
       | _ => Pending
       end)
  | UsingCredentials _ =>
      match create_signin with
      | Resolved (Truthy data) =>
          let s1 := with_session s (Some (session data)) in
          let (s2, r) := update read_user s1 in
          (s2,
           match r with
           | Resolved u => Resolved (mkSigninReturn (session data) u)
           | _ => Pending
           end)
      | Resolved (Falsy _) => (s, Pending)
      | Rejected e => (s, Rejected e)
      | Pending => (s, Pending)
      end
  end.

(** ** Runs of the module *)

Inductive op : Type :=
| OpOnNoSession (cb : jsval)
| OpPermissionsSubscribe (cb : callback) (name id : option string)
| OpPermissionsUnsubscribe (cb : callback) (name id : option string)
| OpSubscribe (cb : callback)
| OpUnsubscribe (cb : callback)
| OpCallUnsubscribe (u : unsubscriber)
| OpNoSession
| OpUpdate (read_user : settled (fetched userType))
| OpSignout (create_signout : settled bool)
| OpSignin (using' : signinUsing)
    (create_signin : settled (fetched signinReturn))
    (read_user : settled (fetched userType)).

Definition step (s : state) (o : op) : state :=
  match o with
  | OpOnNoSession cb => state_of (onNoSession cb s)
  | OpPermissionsSubscribe cb name id =>
      state_of (permissionsSubscribe cb name id s)
  | OpPermissionsUnsubscribe cb name id =>
      snd (permissionsUnsubscribe cb name id s)
  | OpSubscribe cb => state_of (subscribe cb s)
  | OpUnsubscribe cb => snd (unsubscribe cb s)
  | OpCallUnsubscribe u => callUnsubscribe u s
  | OpNoSession => state_of (noSessionHandler s)
  | OpUpdate r => fst (update r s)
  | OpSignout r => fst (signout r s)
  | OpSignin u c r => fst (signin u c r s)
  end.

Definition run (ops : list op) (s : state) : state := fold_left step ops s.

(** ** Observations on a state *)

(** Several events at once. *)
Definition emits (s : state) (es : list event) : state :=
  mkState (_user s) (_userSubscriptions s) (_permissions s)
    (_permissionsSubscriptions s) (_rightsSubscriptions s)
    (_rightsAllSubscriptions s) (_noSession s) (brain_session s)
    (trace s ++ es)%list.

(** The events added between [s] and a later state [s']. *)
Definition newEvents (s s' : state) : list event :=
  skipn (List.length (trace s)) (trace s').

(** The observers registered under a key, none if the key is absent. *)
Definition observersAt (r : Obj.t (list callback)) (k : string)
  : list callback :=
  match Obj.get r k with Some l => l | None => [] end.

(** The rights [p] itself holds for the name and the id key [k] splits
    into. *)
Definition keyValue (p : permissionsStruct) (k : string) : idStruct :=
  let (name, id) := splitKey k in rightsOf p name id.

(** The value [permissionsSet] calls the observers of key [k] with. *)
Definition keyScopeValue (p : permissionsStruct) (k : string) : value :=
  let (name, id) := splitKey k in scopeValue p name id.

(** The calls of one replacement of the permissions by [p]. *)
Definition permissionEvents (p : permissionsStruct) (subs : list callback)
  (r : Obj.t (list callback)) : list event :=
  (map (fun f => Call f (VPermissions p)) subs ++
   flat_map
     (fun k => map (fun f => Call f (keyScopeValue p k)) (observersAt r k))
     (Obj.keys r))%list.

(** The calls of one replacement of the user by [u]. *)
Definition userEvents (u : option userType) (subs : list callback)
  : list event :=
  map (fun f => Call f (VUser u)) subs.

(** How often [f] is called in a list of events as an observer. *)
Definition calls (f : callback) (es : list event) : nat :=
  List.length
    (filter
       (fun e => match e with Call g _ => Nat.eqb g f | _ => false end) es).

(** How often [f] is registered in a list. *)
Definition count (f : callback) (l : list callback) : nat :=
  count_occ Nat.eq_dec l f.

(** How often [f] is registered under the keys of [r]. *)
Definition occurrences (f : callback) (r : Obj.t (list callback)) : nat :=
  list_sum (map (fun k => count f (observersAt r k)) (Obj.keys r)).

(** The array without the first occurrence of [f]. *)
Fixpoint removeFirst (f : callback) (l : list callback) : list callback :=
  match l with
  | [] => []
  | g :: r => if Nat.eqb g f then r else g :: removeFirst f r
  end.

(** The registry once the first [f] under key [k] is spliced out, the key
    going with its last observer. *)
Definition removeObserver (r : Obj.t (list callback)) (k : string)
  (f : callback) : Obj.t (list callback) :=
  match removeFirst f (observersAt r k) with
  | [] => Obj.delete r k
  | l' => Obj.set r k l'
  end.

(** The key [permissionsUnsubscribe] looks under. *)
Definition unsubscribeKey (name : string) (id : option string) : string :=
  fullKey name (match id with None => RIGHTS_ALL_ID | Some i => i end).

(** No key of the registry holds an empty array. *)
Definition noEmptyList (r : Obj.t (list callback)) : Prop :=
  forall k, Obj.get r k <> Some [].

(** [s'] has the observers and the no-session callback of [s]. *)
Definition frame (s s' : state) : Prop :=
  _userSubscriptions s' = _userSubscriptions s /\
  _permissionsSubscriptions s' = _permissionsSubscriptions s /\
  _rightsSubscriptions s' = _rightsSubscriptions s /\
  _rightsAllSubscriptions s' = _rightsAllSubscriptions s /\
  _noSession s' = _noSession s.

(** The three lists an unsubscribe call can address: the observers of the
    user, those of all permissions, those of a name and an id (the id
    [RIGHTS_ALL_ID] when none is given). *)
Inductive scope : Type :=
| UserScope
| AllPermissions
| Scoped (name : string) (id : option string).

Definition observers (sc : scope) (s : state) : list callback :=
  match sc with
  | UserScope => _userSubscriptions s
  | AllPermissions => _permissionsSubscriptions s
  | Scoped name id =>
      observersAt (_rightsSubscriptions s) (unsubscribeKey name id)
  end.

Definition unsubscribeFrom (sc : scope) (f : callback) (s : state)
  : bool * state :=
  match sc with
  | UserScope => unsubscribe f s
  | AllPermissions => permissionsUnsubscribe f None None s
  | Scoped name id => permissionsUnsubscribe f (Some name) id s
  end.

(** A replacement of the store the scope belongs to: of the user by [u],
    or of the permissions by those of [list]. *)
Definition replaced (sc : scope) (u : option userType)
  (list : Obj.t rightStruct) (s : state) : state :=
  match sc with
  | UserScope => set u s
  | _ => permissionsSet list s
  end.

(** How often [f] is registered with the store the scope belongs to. *)
Definition registered (sc : scope) (f : callback) (s : state) : nat :=
  match sc with
  | UserScope => count f (_userSubscriptions s)
  | _ =>
      (count f (_permissionsSubscriptions s) +
       occurrences f (_rightsSubscriptions s))%nat
  end.

(** The no-session callbacks called in a list of events. *)
Definition noSessionCalls (es : list event) : list callback :=
  flat_map
    (fun e => match e with CallNoSession f => [f] | _ => [] end) es.

(** The steps that register a no-session callback. *)
Definition registers (o : op) : bool :=
  match o with
  | OpOnNoSession (JFunction _) => true
  | _ => false
  end.

(** No property name occurs twice. *)
Fixpoint uniqueKeys (ks : list string) : bool :=
  match ks with
  | [] => true
  | k :: r => negb (existsb (String.eqb k) r) && uniqueKeys r
  end.

Definition wf (s : state) : bool :=
  uniqueKeys (Obj.keys (_rightsSubscriptions s)).

(** No ':' in a string. *)
Fixpoint colonFree (k : string) : bool :=
  match k with
  | EmptyString => true
  | String c r => negb (Ascii.eqb c ":"%char) && colonFree r
  end.

(** Every key of the registry holds a ':'. *)
Definition keysHaveColon (r : Obj.t (list callback)) : bool :=
  forallb (fun k => negb (colonFree k)) (Obj.keys r).

(** ** Further functions of the module *)

(** [signup(using)], given how [brain.create('signup', using)] settles. *)
Definition signup (create_signup : settled bool) (s : state)
  : state * settled bool :=
  (s, create_signup).

(** The effect of [usePermissions]: what runs when the component mounts,
    with the state setter [permsSet] of the component; it returns the
    closure its cleanup calls. *)
Definition usePermissions_effect (permsSet : callback) (s : state)
  : result unsubscriber :=
  match permissionsSubscribe permsSet None None s with
  | Ok o s1 => Ok (psr_unsubscribe o) s1
  | Throw e s1 => Throw e s1
  end.


(** The effect of [useRightsAll(permission)]. *)
Definition useRightsAll_effect (rightsSet : callback) (permission : string)
  (s : state) : result unsubscriber :=
  match permissionsSubscribe rightsSet (Some permission) None s with
  | Ok o s1 => Ok (psr_unsubscribe o) s1
  | Throw e s1 => Throw e s1
  end.

(** The effect of [useUser]. *)
Definition useUser_effect (userSet : callback) (s : state)
  : result unsubscriber :=
  match subscribe userSet s with
  | Ok o s1 => Ok (sr_unsubscribe o) s1
  | Throw e s1 => Throw e s1
  end.

(** ** Further observations *)

(** The values [f] is called with in a list of events, oldest first. *)
Definition valuesFor (f : callback) (es : list event) : list value :=
  flat_map
    (fun e =>
       match e with
       | Call g v => if Nat.eqb g f then [v] else []
       | _ => []
       end) es.

(** The value of the last call of [f]. *)
Definition lastValue (f : callback) (es : list event) : option value :=
  last (map Some (valuesFor f es)) None.

(** [_noSession] is [undefined] or a function. *)
Definition callableOrUndefined (v : jsval) : bool :=
  match v with
  | JUndefined => true
  | JFunction _ => true
  | _ => false
  end.


(** The events added between two states of the one-level variant. *)
Definition V1_newEvents (s s' : V1.state) : list V1.event :=
  skipn (List.length (V1.trace s)) (V1.trace s').

(** The calls of one replacement of the permissions by [p] in the
    one-level variant. *)
Definition V1_permissionEvents (p : Obj.t idStruct) (subs : list callback)
  (r : Obj.t (list callback)) : list V1.event :=
  (map (fun f => V1.Call f (V1.VPermissions p)) subs ++
   flat_map
     (fun k =>
        map (fun f => V1.Call f (V1.scopeValue p k)) (observersAt r k))
     (Obj.keys r))%list.


(* ================================================================== *)
(** * Part II: properties *)
(* ================================================================== *)

(** ** Objects *)

Lemma Obj_get_set_eq (V : Type) (o : Obj.t V) k v :
  Obj.get (Obj.set o k v) k = Some v.
Proof.
  induction o as [|[k' v'] r IH]; simpl.
  - now rewrite String.eqb_refl.
  - destruct (String.eqb k' k) eqn:E; simpl.
    + now rewrite String.eqb_refl.
    + now rewrite E.
Qed.

Lemma Obj_get_set_neq (V : Type) (o : Obj.t V) k k' v :
  k <> k' -> Obj.get (Obj.set o k v) k' = Obj.get o k'.
Proof.
  intros Hn. induction o as [|[k0 v0] r IH]; simpl.
  - destruct (String.eqb k k') eqn:E; [|reflexivity].
    apply String.eqb_eq in E. contradiction.
  - destruct (String.eqb k0 k) eqn:E; simpl.
    + apply String.eqb_eq in E. subst k0.
      destruct (String.eqb k k') eqn:E'; [|reflexivity].
      apply String.eqb_eq in E'. contradiction.
    + now rewrite IH.
Qed.

Lemma Obj_get_delete_eq (V : Type) (o : Obj.t V) k :
  Obj.get (Obj.delete o k) k = None.
Proof.
  unfold Obj.delete. induction o as [|[k' v'] r IH]; simpl; [reflexivity|].
  destruct (String.eqb k' k) eqn:E; simpl; [assumption|].
  now rewrite E.
Qed.

Lemma Obj_get_delete_neq (V : Type) (o : Obj.t V) k k' :
  k <> k' -> Obj.get (Obj.delete o k) k' = Obj.get o k'.
Proof.
  intros Hn. unfold Obj.delete.
  induction o as [|[k0 v0] r IH]; simpl; [reflexivity|].
  destruct (String.eqb k0 k) eqn:E; simpl.
  - apply String.eqb_eq in E. subst k0.
    destruct (String.eqb k k') eqn:E'; [|assumption].
    apply String.eqb_eq in E'. contradiction.
  - now rewrite IH.
Qed.

Lemma Obj_get_keys (V : Type) (o : Obj.t V) k :
  In k (Obj.keys o) <-> Obj.get o k <> None.
Proof.
  induction o as [|[k' v'] r IH]; simpl.
  - split; [intros [] | congruence].
  - destruct (String.eqb k' k) eqn:E.
    + apply String.eqb_eq in E. split; [congruence | auto].
    + apply String.eqb_neq in E. rewrite <- IH. split; [|auto].
      intros [H|H]; [contradiction | assumption].
Qed.

(** A loop [for (k of ks) acc[k] = f(k)]. *)
Lemma Obj_get_build (V : Type) (f : string -> V) ks :
  forall acc k,
    Obj.get (fold_left (fun a x => Obj.set a x (f x)) ks acc) k =
    if existsb (String.eqb k) ks then Some (f k) else Obj.get acc k.
Proof.
  induction ks as [|x r IH]; intros acc k; simpl; [reflexivity|].
  rewrite IH. destruct (existsb (String.eqb k) r) eqn:Er.
  - now rewrite orb_true_r.
  - rewrite orb_false_r. destruct (String.eqb k x) eqn:E.
    + apply String.eqb_eq in E. subst x. apply Obj_get_set_eq.
    + apply String.eqb_neq in E. apply Obj_get_set_neq. congruence.
Qed.

Lemma existsb_keys (V : Type) (o : Obj.t V) k :
  existsb (String.eqb k) (Obj.keys o) = Obj.has o k.
Proof.
  unfold Obj.has. induction o as [|[k' v'] r IH]; simpl; [reflexivity|].
  rewrite String.eqb_sym. destruct (String.eqb k' k); simpl; auto.
Qed.

(** ** Rights *)

Lemma ToInt32_testbit v i :
  (0 <= i < 32)%Z -> Z.testbit (ToInt32 v) i = Z.testbit v i.
Proof.
  intros Hi. unfold ToInt32.
  assert (Hm : Z.testbit (v mod 2 ^ 32) i = Z.testbit v i)
    by (apply Z.mod_pow2_bits_low; lia).
  destruct (2 ^ 31 <=? v mod 2 ^ 32)%Z; [|assumption].
  rewrite <- Hm.
  rewrite <- (Z.mod_pow2_bits_low (v mod 2 ^ 32 - 2 ^ 32) 32 i) by lia.
  rewrite <- (Z.mod_pow2_bits_low (v mod 2 ^ 32) 32 i) by lia.
  f_equal.
  replace (v mod 2 ^ 32 - 2 ^ 32)%Z
    with (v mod 2 ^ 32 + (-1) * 2 ^ 32)%Z by lia.
  now rewrite Z.mod_add by lia.
Qed.

Lemma land_pow2 x i :
  (0 <= i)%Z ->
  Z.land x (2 ^ i) = if Z.testbit x i then (2 ^ i)%Z else 0%Z.
Proof.
  intros Hi. apply Z.bits_inj'. intros n Hn.
  rewrite Z.land_spec, Z.pow2_bits_eqb by assumption.
  destruct (Z.eqb_spec i n) as [->|Hne].
  - rewrite andb_true_r. destruct (Z.testbit x n) eqn:E.
    + now rewrite Z.pow2_bits_eqb, Z.eqb_refl.
    + now rewrite Z.bits_0.
  - rewrite andb_false_r. destruct (Z.testbit x i).
    + rewrite Z.pow2_bits_eqb by assumption.
      symmetry. now apply Z.eqb_neq.
    + now rewrite Z.bits_0.
Qed.

(** [flags & 2^i] is truthy exactly when bit [i] of [flags] is set. *)
Lemma bitand_pow2 v i :
  (0 <= i < 31)%Z -> truthy (bitand v (2 ^ i)) = Z.testbit v i.
Proof.
  intros Hi. unfold bitand, truthy.
  assert (H2 : ToInt32 (2 ^ i) = (2 ^ i)%Z).
  { unfold ToInt32.
    assert (2 ^ i < 2 ^ 31)%Z by (apply Z.pow_lt_mono_r; lia).
    assert (0 < 2 ^ i)%Z by (apply Z.pow_pos_nonneg; lia).
    rewrite Z.mod_small by lia.
    destruct (Z.leb_spec (2 ^ 31) (2 ^ i)); [lia | reflexivity]. }
  rewrite H2, land_pow2 by lia.
  rewrite ToInt32_testbit by lia.
  destruct (Z.testbit v i); [|reflexivity].
  assert (0 < 2 ^ i)%Z by (apply Z.pow_pos_nonneg; lia).
  destruct (Z.eqb_spec (2 ^ i) 0); [lia | reflexivity].
Qed.

(** The four capabilities a flags value grants, in the order of [_types]. *)
Lemma decodeRights_bits v :
  decodeRights v =
    ((if Z.testbit v 0 then [("create", true)] else []) ++
     (if Z.testbit v 1 then [("read", true)] else []) ++
     (if Z.testbit v 2 then [("update", true)] else []) ++
     (if Z.testbit v 3 then [("delete", true)] else []))%list.
Proof.
  unfold decodeRights. cbn [Obj.keys _types map fst fold_left].
  change (typeBit "create") with (2 ^ 0)%Z.
  change (typeBit "read") with (2 ^ 1)%Z.
  change (typeBit "update") with (2 ^ 2)%Z.
  change (typeBit "delete") with (2 ^ 3)%Z.
  rewrite !bitand_pow2 by lia.
  destruct (Z.testbit v 0), (Z.testbit v 1), (Z.testbit v 2),
    (Z.testbit v 3); reflexivity.
Qed.

Lemma Obj_get_In (V : Type) (o : Obj.t V) k v :
  Obj.get o k = Some v -> In (k, v) o.
Proof.
  induction o as [|[k' v'] r IH]; simpl; [discriminate|].
  destruct (String.eqb k' k) eqn:E.
  - apply String.eqb_eq in E. intros [= ->]. left. now subst.
  - auto.
Qed.

Lemma decodeRights_only_true v k : Obj.get (decodeRights v) k <> Some false.
Proof.
  intros H. apply Obj_get_In in H. rewrite decodeRights_bits in H.
  destruct (Z.testbit v 0), (Z.testbit v 1), (Z.testbit v 2),
    (Z.testbit v 3); simpl in H; intuition congruence.
Qed.

Lemma decodeIds_get ids id :
  Obj.get (decodeIds ids) id = option_map decodeRights (Obj.get ids id).
Proof.
  unfold decodeIds.
  rewrite (Obj_get_build
             (fun x => decodeRights
                         (match Obj.get ids x with Some v => v | None => 0%Z end))).
  rewrite existsb_keys. unfold Obj.has.
  destruct (Obj.get ids id); reflexivity.
Qed.

Lemma decodePermissions_get list name :
  Obj.get (decodePermissions list) name =
  option_map decodeIds (Obj.get list name).
Proof.
  unfold decodePermissions.
  rewrite (Obj_get_build
             (fun x => decodeIds
                         (match Obj.get list x with Some v => v | None => [] end))).
  rewrite existsb_keys. unfold Obj.has.
  destruct (Obj.get list name); reflexivity.
Qed.

(** The rights kept for an entry are the decoded flags of that entry. *)
Lemma rightsOf_decode list name id :
  rightsOf (decodePermissions list) name id =
  match Obj.get list name with
  | Some ids =>
      match Obj.get ids id with Some v => decodeRights v | None => [] end
  | None => []
  end.
Proof.
  unfold rightsOf. rewrite decodePermissions_get.
  destruct (Obj.get list name) as [ids|]; simpl; [|reflexivity].
  rewrite decodeIds_get. destruct (Obj.get ids id); reflexivity.
Qed.

(** ** Loops over observers *)

Lemma emits_nil s : emits s [] = s.
Proof. destruct s. unfold emits. simpl. now rewrite app_nil_r. Qed.

Lemma emits_emits s a b : emits (emits s a) b = emits s (a ++ b)%list.
Proof. unfold emits. simpl. now rewrite app_assoc. Qed.

Lemma emit_emits s e : emit s e = emits s [e].
Proof. reflexivity. Qed.

Lemma skipn_length_app (A : Type) (l es : list A) :
  skipn (List.length l) (l ++ es)%list = es.
Proof. induction l; simpl; auto. Qed.

Lemma newEvents_emits s0 s es :
  trace s = trace s0 -> newEvents s0 (emits s es) = es.
Proof.
  intros H. unfold newEvents, emits. simpl. rewrite H.
  apply skipn_length_app.
Qed.

(** A [for (const f of fs) f(val)] loop, when [val] does not read the
    trace. *)
Lemma fold_invoke (val : state -> value) :
  (forall s es, val (emits s es) = val s) ->
  forall fs s,
    fold_left (fun st f => invoke f (val st) st) fs s =
    emits s (map (fun f => Call f (val s)) fs).
Proof.
  intros Hval fs. induction fs as [|f r IH]; intros s; simpl.
  - now rewrite emits_nil.
  - rewrite IH. unfold invoke. rewrite emit_emits, Hval, emits_emits.
    reflexivity.
Qed.

Lemma set_eq u s :
  set u s = emits (with_user s u) (userEvents u (_userSubscriptions s)).
Proof.
  unfold set.
  rewrite (fold_invoke (fun st => VUser (clone (_user st))))
    by reflexivity.
  reflexivity.
Qed.

Lemma notifyKey_eq k s :
  notifyKey k s =
  emits s
    (map (fun f => Call f (keyScopeValue (_permissions s) k))
       (observersAt (_rightsSubscriptions s) k)).
Proof.
  unfold notifyKey, keyScopeValue, observersAt.
  destruct (splitKey k) as [name id].
  now rewrite (fold_invoke
                 (fun st => scopeValue (_permissions st) name id))
    by reflexivity.
Qed.

Lemma fold_notifyKey ks :
  forall s,
    fold_left (fun st k => notifyKey k st) ks s =
    emits s
      (flat_map
         (fun k =>
            map (fun f => Call f (keyScopeValue (_permissions s) k))
              (observersAt (_rightsSubscriptions s) k))
         ks).
Proof.
  induction ks as [|k r IH]; intros s; simpl.
  - now rewrite emits_nil.
  - rewrite IH, notifyKey_eq, emits_emits. reflexivity.
Qed.

(** [permissionsSet] replaces the map and makes the calls of
    [permissionEvents], in that order. *)
Lemma permissionsSet_eq list s :
  permissionsSet list s =
  emits (with_permissions s (decodePermissions list))
    (permissionEvents (decodePermissions list)
       (_permissionsSubscriptions s) (_rightsSubscriptions s)).
Proof.
  unfold permissionsSet, permissionEvents.
  rewrite (fold_invoke (fun st => VPermissions (clone (_permissions st))))
    by reflexivity.
  rewrite fold_notifyKey, emits_emits. reflexivity.
Qed.

(** ** Arrays of callbacks *)

Lemma indexOf_None l f : indexOf l f = None <-> ~ In f l.
Proof.
  induction l as [|g r IH]; simpl.
  - split; [intros _ [] | reflexivity].
  - destruct (Nat.eqb_spec g f) as [->|Hne].
    + split; [discriminate | intros H; exfalso; apply H; now left].
    + destruct (indexOf r f).
      * split; [discriminate|]. intros H. exfalso.
        assert (Hr : ~ In f r) by (intros Hin; apply H; now right).
        apply IH in Hr. discriminate.
      * split; [|reflexivity]. intros _ [H|H]; [congruence|].
        now apply (proj1 IH).
Qed.

Lemma indexOf_Some l f i :
  indexOf l f = Some i -> In f l /\ splice1 l i = removeFirst f l.
Proof.
  revert i. induction l as [|g r IH]; intros i; simpl; [discriminate|].
  destruct (Nat.eqb_spec g f) as [->|Hne].
  - intros [= <-]. split; [now left | reflexivity].
  - destruct (indexOf r f) as [j|]; [|discriminate].
    intros [= <-]. destruct (IH j eq_refl) as [Hin Hs].
    split; [now right | now rewrite Hs].
Qed.

Lemma indexOf_In l f : In f l -> exists i, indexOf l f = Some i.
Proof.
  intros Hin. destruct (indexOf l f) as [i|] eqn:E; [eauto|].
  apply indexOf_None in E. contradiction.
Qed.

Lemma count_cons f g l :
  count f (g :: l) = ((if Nat.eqb g f then 1 else 0) + count f l)%nat.
Proof.
  unfold count. simpl.
  destruct (Nat.eq_dec g f) as [->|Hne].
  - now rewrite Nat.eqb_refl.
  - apply Nat.eqb_neq in Hne. now rewrite Hne.
Qed.

Lemma count_app f l1 l2 :
  count f (l1 ++ l2) = (count f l1 + count f l2)%nat.
Proof. unfold count. apply count_occ_app. Qed.

Lemma count_In f l : In f l <-> (1 <= count f l)%nat.
Proof. unfold count. rewrite (count_occ_In Nat.eq_dec). lia. Qed.

Lemma count_removeFirst f l :
  In f l -> count f l = S (count f (removeFirst f l)).
Proof.
  induction l as [|g r IH]; [intros []|].
  intros Hin. rewrite count_cons. cbn [removeFirst].
  destruct (Nat.eqb_spec g f) as [->|Hne]; [reflexivity|].
  rewrite count_cons.
  destruct (Nat.eqb_spec g f) as [|_]; [contradiction|].
  simpl. apply IH. destruct Hin as [H|H]; [contradiction | assumption].
Qed.

Lemma removeFirst_push f l : ~ In f l -> removeFirst f (push l f) = l.
Proof.
  unfold push. induction l as [|g r IH]; simpl; intros Hn.
  - now rewrite Nat.eqb_refl.
  - destruct (Nat.eqb_spec g f) as [->|Hne].
    + exfalso. apply Hn. now left.
    + rewrite IH; [reflexivity|]. intros H. apply Hn. now right.
Qed.

Lemma push_not_nil l f : push l f <> [].
Proof. unfold push. destruct l; discriminate. Qed.

(** ** Counting calls *)

Lemma calls_app f a b : calls f (a ++ b) = (calls f a + calls f b)%nat.
Proof. unfold calls. now rewrite filter_app, length_app. Qed.

Lemma calls_map_Call f v l :
  calls f (map (fun g => Call g v) l) = count f l.
Proof.
  induction l as [|g r IH]; [reflexivity|].
  rewrite count_cons, <- IH. unfold calls. simpl.
  destruct (Nat.eqb g f); reflexivity.
Qed.

Lemma calls_userEvents f u l : calls f (userEvents u l) = count f l.
Proof. apply calls_map_Call. Qed.

Lemma calls_permissionEvents f p subs r :
  calls f (permissionEvents p subs r) =
  (count f subs + occurrences f r)%nat.
Proof.
  unfold permissionEvents, occurrences.
  rewrite calls_app, calls_map_Call. f_equal.
  induction (Obj.keys r) as [|k ks IH]; [reflexivity|].
  simpl. now rewrite calls_app, calls_map_Call, IH.
Qed.

(** ** The registry of scoped observers *)

Lemma Obj_has_get (V : Type) (o : Obj.t V) k :
  Obj.has o k = false <-> Obj.get o k = None.
Proof. unfold Obj.has. destruct (Obj.get o k); split; congruence. Qed.

Lemma Obj_set_set (V : Type) (o : Obj.t V) k a b :
  Obj.set (Obj.set o k a) k b = Obj.set o k b.
Proof.
  induction o as [|[k' v'] r IH]; simpl.
  - now rewrite String.eqb_refl.
  - destruct (String.eqb k' k) eqn:E; simpl.
    + now rewrite String.eqb_refl.
    + now rewrite E, IH.
Qed.

Lemma Obj_delete_set (V : Type) (o : Obj.t V) k v :
  Obj.delete (Obj.set o k v) k = Obj.delete o k.
Proof.
  unfold Obj.delete. induction o as [|[k' v'] r IH]; simpl.
  - now rewrite String.eqb_refl.
  - destruct (String.eqb k' k) eqn:E; simpl.
    + now rewrite String.eqb_refl.
    + now rewrite E, IH.
Qed.

Lemma Obj_keys_set (V : Type) (o : Obj.t V) k v :
  Obj.keys (Obj.set o k v) =
  if Obj.has o k then Obj.keys o else (Obj.keys o ++ [k])%list.
Proof.
  unfold Obj.has. induction o as [|[k' v'] r IH]; simpl; [reflexivity|].
  destruct (String.eqb k' k) eqn:E; simpl.
  - apply String.eqb_eq in E. now subst.
  - rewrite IH. destruct (Obj.get r k); reflexivity.
Qed.

Lemma Obj_keys_delete (V : Type) (o : Obj.t V) k :
  Obj.keys (Obj.delete o k) =
  filter (fun x => negb (String.eqb x k)) (Obj.keys o).
Proof.
  unfold Obj.delete, Obj.keys.
  induction o as [|[k' v'] r IH]; simpl; [reflexivity|].
  destruct (String.eqb k' k); simpl; now rewrite IH.
Qed.

Lemma Obj_keys_delete_notin (V : Type) (o : Obj.t V) k :
  ~ In k (Obj.keys (Obj.delete o k)).
Proof.
  rewrite Obj_keys_delete. intros H. apply filter_In in H.
  destruct H as [_ H]. now rewrite String.eqb_refl in H.
Qed.

Lemma observersAt_set_eq r k l : observersAt (Obj.set r k l) k = l.
Proof. unfold observersAt. now rewrite Obj_get_set_eq. Qed.

Lemma observersAt_set_neq r k k' l :
  k <> k' -> observersAt (Obj.set r k l) k' = observersAt r k'.
Proof. intros H. unfold observersAt. now rewrite Obj_get_set_neq. Qed.

Lemma observersAt_set r k k' l :
  observersAt (Obj.set r k l) k' =
  if String.eqb k k' then l else observersAt r k'.
Proof.
  destruct (String.eqb_spec k k') as [->|Hne].
  - apply observersAt_set_eq.
  - now apply observersAt_set_neq.
Qed.

Lemma observersAt_delete_eq r k : observersAt (Obj.delete r k) k = [].
Proof. unfold observersAt. now rewrite Obj_get_delete_eq. Qed.

Lemma observersAt_delete_neq r k k' :
  k <> k' -> observersAt (Obj.delete r k) k' = observersAt r k'.
Proof. intros H. unfold observersAt. now rewrite Obj_get_delete_neq. Qed.

Lemma existsb_filter_false (p : string -> bool) k ks :
  existsb (String.eqb k) ks = false ->
  existsb (String.eqb k) (filter p ks) = false.
Proof.
  induction ks as [|x r IH]; simpl; [reflexivity|].
  intros H. apply orb_false_iff in H. destruct H as [Hx Hr].
  destruct (p x); simpl; [rewrite Hx|]; auto.
Qed.

Lemma uniqueKeys_filter (p : string -> bool) ks :
  uniqueKeys ks = true -> uniqueKeys (filter p ks) = true.
Proof.
  induction ks as [|x r IH]; simpl; [reflexivity|].
  intros H. apply andb_true_iff in H. destruct H as [Hx Hr].
  destruct (p x); simpl; [|auto].
  rewrite IH by assumption. rewrite andb_true_r.
  apply negb_true_iff in Hx. apply negb_true_iff.
  now apply existsb_filter_false.
Qed.

Lemma uniqueKeys_snoc ks k :
  uniqueKeys ks = true -> existsb (String.eqb k) ks = false ->
  uniqueKeys (ks ++ [k]) = true.
Proof.
  induction ks as [|x r IH]; simpl; [reflexivity|].
  intros H Hk. apply andb_true_iff in H. destruct H as [Hx Hr].
  apply orb_false_iff in Hk. destruct Hk as [Hkx Hkr].
  rewrite IH by assumption. rewrite andb_true_r.
  rewrite existsb_app. simpl. rewrite orb_false_r.
  apply negb_true_iff in Hx. rewrite Hx. simpl.
  now rewrite String.eqb_sym, Hkx.
Qed.

Lemma uniqueKeys_set (V : Type) (o : Obj.t V) k v :
  uniqueKeys (Obj.keys o) = true ->
  uniqueKeys (Obj.keys (Obj.set o k v)) = true.
Proof.
  intros H. rewrite Obj_keys_set. destruct (Obj.has o k) eqn:E; [assumption|].
  apply uniqueKeys_snoc; [assumption|]. now rewrite existsb_keys.
Qed.

Lemma uniqueKeys_delete (V : Type) (o : Obj.t V) k :
  uniqueKeys (Obj.keys o) = true ->
  uniqueKeys (Obj.keys (Obj.delete o k)) = true.
Proof. intros H. rewrite Obj_keys_delete. now apply uniqueKeys_filter. Qed.

Lemma sum_keep (g : string -> nat) K a ks :
  existsb (String.eqb K) ks = false ->
  list_sum (map (fun k => if String.eqb K k then a else g k) ks) =
  list_sum (map g ks).
Proof.
  induction ks as [|x r IH]; simpl; [reflexivity|].
  intros H. apply orb_false_iff in H. destruct H as [Hx Hr].
  now rewrite Hx, IH.
Qed.

Lemma sum_update (g : string -> nat) K a ks :
  uniqueKeys ks = true -> existsb (String.eqb K) ks = true ->
  (list_sum (map (fun k => if String.eqb K k then a else g k) ks) + g K =
   list_sum (map g ks) + a)%nat.
Proof.
  induction ks as [|x r IH]; simpl; [discriminate|].
  intros H Hk. apply andb_true_iff in H. destruct H as [Hx Hr].
  apply negb_true_iff in Hx.
  destruct (String.eqb_spec K x) as [->|Hne].
  - rewrite sum_keep by assumption. lia.
  - simpl in Hk. specialize (IH Hr Hk). lia.
Qed.

Lemma occurrences_set f r K l :
  uniqueKeys (Obj.keys r) = true -> Obj.has r K = true ->
  (occurrences f (Obj.set r K l) + count f (observersAt r K) =
   occurrences f r + count f l)%nat.
Proof.
  intros Hu Hh. unfold occurrences. rewrite Obj_keys_set, Hh.
  rewrite (map_ext _
             (fun k => if String.eqb K k then count f l
                       else count f (observersAt r k))).
  - apply (sum_update (fun k => count f (observersAt r k)));
      [assumption | now rewrite existsb_keys].
  - intros k. rewrite observersAt_set. now destruct (String.eqb K k).
Qed.

Lemma occurrences_delete f r K :
  observersAt r K = [] -> occurrences f (Obj.delete r K) = occurrences f r.
Proof.
  intros He. unfold occurrences. rewrite Obj_keys_delete.
  induction (Obj.keys r) as [|x ks IH]; [reflexivity|].
  simpl. destruct (String.eqb_spec x K) as [->|Hne]; simpl.
  - now rewrite IH, He.
  - rewrite IH, observersAt_delete_neq by congruence. reflexivity.
Qed.

(** ** What each function does to the state *)

Lemma with_rightsAllSubscriptions_same s :
  with_rightsAllSubscriptions s (_rightsAllSubscriptions s) = s.
Proof. now destruct s. Qed.

Lemma with_rightsSubscriptions_same s :
  with_rightsSubscriptions s (_rightsSubscriptions s) = s.
Proof. now destruct s. Qed.

Lemma permissionsSubscribe_all cb id s :
  permissionsSubscribe cb None id s =
  Ok (mkPSR (VPermissions (_permissions s)) (UnsubPermissions cb None None))
    (emits
       (with_permissionsSubscriptions s
          (push (_permissionsSubscriptions s) cb))
       [Call cb (VPermissions (_permissions s))]).
Proof. reflexivity. Qed.

Lemma permissionsSubscribe_id cb name id s :
  permissionsSubscribe cb (Some name) (Some id) s =
  Ok (mkPSR (scopeValue (_permissions s) name id)
        (UnsubPermissions cb (Some name) (Some id)))
    (emits
       (with_rightsSubscriptions s
          (Obj.set (_rightsSubscriptions s) (fullKey name id)
             (push (observersAt (_rightsSubscriptions s) (fullKey name id))
                cb)))
       [Call cb (scopeValue (_permissions s) name id)]).
Proof.
  unfold permissionsSubscribe, observersAt, Obj.has.
  destruct (Obj.get (_rightsSubscriptions s) (fullKey name id)) as [l|] eqn:E;
    cbn [negb].
  - rewrite E. reflexivity.
  - cbn [_rightsSubscriptions with_rightsSubscriptions].
    rewrite Obj_get_set_eq.
    cbn [_rightsSubscriptions with_rightsSubscriptions].
    rewrite Obj_set_set. reflexivity.
Qed.

(** Without an id the callback is pushed on [_rightsSubscriptions[name]],
    a list that [_rightsAllSubscriptions[name] = []] has not created. *)
Lemma permissionsSubscribe_name cb name s :
  permissionsSubscribe cb (Some name) None s =
  let s1 :=
    with_rightsAllSubscriptions s
      (if Obj.has (_rightsAllSubscriptions s) name
       then _rightsAllSubscriptions s
       else Obj.set (_rightsAllSubscriptions s) name []) in
  match Obj.get (_rightsSubscriptions s) name with
  | None => Throw TypeError s1
  | Some l =>
      Ok (mkPSR (scopeAllValue (_permissions s) name)
            (UnsubPermissions cb (Some name) None))
        (emits
           (with_rightsSubscriptions s1
              (Obj.set (_rightsSubscriptions s) name (push l cb)))
           [Call cb (scopeAllValue (_permissions s) name)])
  end.
Proof.
  unfold permissionsSubscribe.
  destruct (Obj.has (_rightsAllSubscriptions s) name); cbn [negb].
  - rewrite with_rightsAllSubscriptions_same.
    destruct (Obj.get (_rightsSubscriptions s) name); reflexivity.
  - cbn [_rightsSubscriptions with_rightsAllSubscriptions].
    destruct (Obj.get (_rightsSubscriptions s) name); reflexivity.
Qed.

Lemma permissionsUnsubscribe_all_found cb id s :
  In cb (_permissionsSubscriptions s) ->
  permissionsUnsubscribe cb None id s =
  (true,
   with_permissionsSubscriptions s
     (removeFirst cb (_permissionsSubscriptions s))).
Proof.
  intros Hin. unfold permissionsUnsubscribe.
  destruct (indexOf_In _ _ Hin) as [i Hi]. rewrite Hi.
  now rewrite (proj2 (indexOf_Some _ _ Hi)).
Qed.

Lemma permissionsUnsubscribe_all_missing cb id s :
  ~ In cb (_permissionsSubscriptions s) ->
  permissionsUnsubscribe cb None id s = (false, s).
Proof.
  intros Hn. unfold permissionsUnsubscribe.
  now rewrite (proj2 (indexOf_None _ _) Hn).
Qed.

Lemma permissionsUnsubscribe_found cb name id s :
  In cb (observersAt (_rightsSubscriptions s) (unsubscribeKey name id)) ->
  permissionsUnsubscribe cb (Some name) id s =
  (true,
   with_rightsSubscriptions s
     (removeObserver (_rightsSubscriptions s) (unsubscribeKey name id) cb)).
Proof.
  unfold permissionsUnsubscribe, removeObserver, observersAt, unsubscribeKey.
  set (K := fullKey name _).
  destruct (Obj.get (_rightsSubscriptions s) K) as [l|] eqn:E;
    [|intros []].
  intros Hin. destruct (indexOf_In _ _ Hin) as [i Hi]. rewrite Hi.
  rewrite (proj2 (indexOf_Some _ _ Hi)).
  destruct (removeFirst cb l) as [|g l']; cbn [List.length Nat.leb].
  - cbn [_rightsSubscriptions with_rightsSubscriptions].
    now rewrite Obj_delete_set.
  - reflexivity.
Qed.

Lemma permissionsUnsubscribe_missing cb name id s :
  ~ In cb (observersAt (_rightsSubscriptions s) (unsubscribeKey name id)) ->
  permissionsUnsubscribe cb (Some name) id s = (false, s).
Proof.
  unfold permissionsUnsubscribe, observersAt, unsubscribeKey.
  set (K := fullKey name _).
  destruct (Obj.get (_rightsSubscriptions s) K) as [l|] eqn:E;
    [|reflexivity].
  intros Hn. now rewrite (proj2 (indexOf_None _ _) Hn).
Qed.

Lemma unsubscribe_found cb s :
  In cb (_userSubscriptions s) ->
  unsubscribe cb s =
  (true, with_userSubscriptions s (removeFirst cb (_userSubscriptions s))).
Proof.
  intros Hin. unfold unsubscribe.
  destruct (indexOf_In _ _ Hin) as [i Hi]. rewrite Hi.
  now rewrite (proj2 (indexOf_Some _ _ Hi)).
Qed.

Lemma unsubscribe_missing cb s :
  ~ In cb (_userSubscriptions s) -> unsubscribe cb s = (false, s).
Proof.
  intros Hn. unfold unsubscribe. now rewrite (proj2 (indexOf_None _ _) Hn).
Qed.

(** ** The registry after a removal *)

Lemma removeObserver_at r k f :
  observersAt (removeObserver r k f) k = removeFirst f (observersAt r k).
Proof.
  unfold removeObserver.
  destruct (removeFirst f (observersAt r k)) as [|g l].
  - apply observersAt_delete_eq.
  - apply observersAt_set_eq.
Qed.

Lemma removeObserver_get_other r k k' f :
  k <> k' -> Obj.get (removeObserver r k f) k' = Obj.get r k'.
Proof.
  intros Hn. unfold removeObserver.
  destruct (removeFirst f (observersAt r k)) as [|g l].
  - now apply Obj_get_delete_neq.
  - now apply Obj_get_set_neq.
Qed.

Lemma removeObserver_last r k f :
  removeFirst f (observersAt r k) = [] ->
  ~ In k (Obj.keys (removeObserver r k f)) /\
  Obj.has (removeObserver r k f) k = false.
Proof.
  intros He. unfold removeObserver. rewrite He. split.
  - apply Obj_keys_delete_notin.
  - apply Obj_has_get, Obj_get_delete_eq.
Qed.

Lemma removeObserver_unique r k f :
  uniqueKeys (Obj.keys r) = true ->
  uniqueKeys (Obj.keys (removeObserver r k f)) = true.
Proof.
  intros H. unfold removeObserver.
  destruct (removeFirst f (observersAt r k)).
  - now apply uniqueKeys_delete.
  - now apply uniqueKeys_set.
Qed.

Lemma removeObserver_occurrences r k f g :
  uniqueKeys (Obj.keys r) = true -> In f (observersAt r k) ->
  (occurrences g (removeObserver r k f) + count g (observersAt r k) =
   occurrences g r + count g (removeFirst f (observersAt r k)))%nat.
Proof.
  intros Hu Hin.
  assert (Hh : Obj.has r k = true).
  { unfold Obj.has, observersAt in *.
    destruct (Obj.get r k); [reflexivity | destruct Hin]. }
  pose proof (occurrences_set g r k (removeFirst f (observersAt r k)) Hu Hh)
    as Hset.
  unfold removeObserver.
  destruct (removeFirst f (observersAt r k)) as [|h l] eqn:E;
    [|exact Hset].
  rewrite <- (Obj_delete_set r k []).
  rewrite occurrences_delete by apply observersAt_set_eq.
  exact Hset.
Qed.

(** ** What the store replacements leave alone *)

Lemma frame_refl s : frame s s.
Proof. repeat split. Qed.

Lemma frame_trans s1 s2 s3 : frame s1 s2 -> frame s2 s3 -> frame s1 s3.
Proof. unfold frame. intuition congruence. Qed.

Lemma frame_set u s : frame s (set u s).
Proof. rewrite set_eq. repeat split. Qed.

Lemma frame_permissionsSet list s : frame s (permissionsSet list s).
Proof. rewrite permissionsSet_eq. repeat split. Qed.

Lemma frame_update r s : frame s (fst (update r s)).
Proof.
  destruct r as [[v|data]|e|]; simpl; try apply frame_refl.
  - eapply frame_trans; [apply frame_set | apply frame_permissionsSet].
  - destruct (handle e); simpl; repeat split.
Qed.

Lemma frame_signout r s : frame s (fst (signout r s)).
Proof.
  destruct r as [[|]|e|]; simpl; try apply frame_refl.
  eapply frame_trans; [|apply frame_permissionsSet].
  eapply frame_trans; [|apply frame_set]. repeat split.
Qed.

Lemma frame_signin u c r s : frame s (fst (signin u c r s)).
Proof.
  unfold signin. destruct u as [token|cr].
  - pose proof (frame_update r (with_session s (Some token))) as H.
    destruct (update r (with_session s (Some token))) as [s2 r2].
    simpl in *. eapply frame_trans; [|exact H]. repeat split.
  - destruct c as [[v|data]|e|]; simpl; try apply frame_refl.
    pose proof (frame_update r (with_session s (Some (session data)))) as H.
    destruct (update r (with_session s (Some (session data)))) as [s2 r2].
    simpl in *. eapply frame_trans; [|exact H]. repeat split.
Qed.

Lemma frame_noSessionHandler s : frame s (state_of (noSessionHandler s)).
Proof.
  unfold noSessionHandler.
  set (s3 := permissionsSet [] (set None (with_session s None))).
  assert (H : frame s s3).
  { eapply frame_trans; [|apply frame_permissionsSet].
    eapply frame_trans; [|apply frame_set]. repeat split. }
  destruct (_noSession s3); exact H.
Qed.

(** ** Every step keeps the registry well formed *)

(** How one step changes [_rightsSubscriptions]: not at all, by a push
    under one key, or by the removal of a registered observer. *)
Lemma step_registry s o :
  let r := _rightsSubscriptions s in
  let r' := _rightsSubscriptions (step s o) in
  r' = r \/
  (exists k l f,
     r' = Obj.set r k (push l f) /\
     (Obj.has r k = true \/ exists name id, k = fullKey name id)) \/
  (exists k f, In f (observersAt r k) /\ r' = removeObserver r k f).
Proof.
  assert (Hunp : forall cb name id,
    let r := _rightsSubscriptions s in
    let r' := _rightsSubscriptions
                (snd (permissionsUnsubscribe cb name id s)) in
    r' = r \/
    (exists k l f,
       r' = Obj.set r k (push l f) /\
       (Obj.has r k = true \/ exists name id, k = fullKey name id)) \/
    (exists k f, In f (observersAt r k) /\ r' = removeObserver r k f)).
  { intros cb [name|] id; cbn zeta.
    - destruct (in_dec Nat.eq_dec cb
                  (observersAt (_rightsSubscriptions s)
                     (unsubscribeKey name id))) as [Hin|Hn].
      + rewrite permissionsUnsubscribe_found by assumption.
        right; right. eauto.
      + rewrite permissionsUnsubscribe_missing by assumption. now left.
    - left. destruct (in_dec Nat.eq_dec cb (_permissionsSubscriptions s)).
      + now rewrite permissionsUnsubscribe_all_found.
      + now rewrite permissionsUnsubscribe_all_missing. }
  assert (Hun : forall cb,
    _rightsSubscriptions (snd (unsubscribe cb s)) = _rightsSubscriptions s).
  { intros cb. destruct (in_dec Nat.eq_dec cb (_userSubscriptions s)).
    - now rewrite unsubscribe_found.
    - now rewrite unsubscribe_missing. }
  destruct o as [v|cb name id|cb name id|cb|cb|u| |r|r|u c r]; cbn zeta;
    cbn [step].
  - left. unfold onNoSession. now destruct (negb _).
  - destruct name as [name|]; [destruct id as [id|]|].
    + rewrite permissionsSubscribe_id. right; left. simpl.
      do 3 eexists. split; [reflexivity | right; eauto].
    + rewrite permissionsSubscribe_name. cbn zeta.
      destruct (Obj.get (_rightsSubscriptions s) name) as [l|] eqn:E;
        [|now left].
      right; left. simpl. do 3 eexists. split; [reflexivity|].
      left. unfold Obj.has. now rewrite E.
    + now left.
  - apply Hunp.
  - now left.
  - left. apply Hun.
  - destruct u as [cb name id|cb]; [apply Hunp | left; apply Hun].
  - left. apply (frame_noSessionHandler s).
  - left. apply (frame_update r s).
  - left. apply (frame_signout r s).
  - left. apply (frame_signin u c r s).
Qed.

Lemma noEmptyList_set r k l f :
  noEmptyList r -> noEmptyList (Obj.set r k (push l f)).
Proof.
  intros H k'. destruct (String.eqb_spec k k') as [->|Hne].
  - rewrite Obj_get_set_eq. intros [= E]. now apply push_not_nil in E.
  - rewrite Obj_get_set_neq by assumption. apply H.
Qed.

Lemma noEmptyList_removeObserver r k f :
  noEmptyList r -> noEmptyList (removeObserver r k f).
Proof.
  intros H k'. destruct (String.eqb_spec k k') as [<-|Hne].
  - unfold removeObserver.
    destruct (removeFirst f (observersAt r k)) as [|g l].
    + now rewrite Obj_get_delete_eq.
    + now rewrite Obj_get_set_eq.
  - rewrite removeObserver_get_other by assumption. apply H.
Qed.

Lemma step_invariant s o :
  wf s = true /\ noEmptyList (_rightsSubscriptions s) ->
  wf (step s o) = true /\ noEmptyList (_rightsSubscriptions (step s o)).
Proof.
  intros [Hw Hn]. unfold wf in *.
  destruct (step_registry s o) as [E|[(k & l & f & E & _)|(k & f & _ & E)]];
    rewrite E.
  - now split.
  - split; [now apply uniqueKeys_set | now apply noEmptyList_set].
  - split; [now apply removeObserver_unique
           | now apply noEmptyList_removeObserver].
Qed.

Lemma run_invariant ops :
  forall s,
    wf s = true /\ noEmptyList (_rightsSubscriptions s) ->
    wf (run ops s) = true /\ noEmptyList (_rightsSubscriptions (run ops s)).
Proof.
  induction ops as [|o r IH]; intros s H; simpl; [assumption|].
  apply IH. now apply step_invariant.
Qed.

Lemma init_invariant :
  wf init = true /\ noEmptyList (_rightsSubscriptions init).
Proof. split; [reflexivity | intros k; discriminate]. Qed.

(** ** Keys *)

Lemma string_length_append a b :
  String.length (a ++ b) = (String.length a + String.length b)%nat.
Proof. induction a as [|c r IH]; simpl; [reflexivity | now rewrite IH]. Qed.

Lemma fullKey_neq_name name id : name <> fullKey name id.
Proof.
  intros H. apply (f_equal String.length) in H. unfold fullKey in H.
  rewrite !string_length_append in H. simpl in H. lia.
Qed.

Lemma split_colon_free k : colonFree k = true -> split_colon k = [k].
Proof.
  induction k as [|c r IH]; simpl; [reflexivity|].
  intros H. apply andb_true_iff in H. destruct H as [Hc Hr].
  apply negb_true_iff in Hc. now rewrite Hc, IH.
Qed.

Lemma split_colon_append name rest :
  colonFree name = true ->
  split_colon (name ++ String ":"%char rest) = name :: split_colon rest.
Proof.
  induction name as [|c r IH]; simpl; [reflexivity|].
  intros H. apply andb_true_iff in H. destruct H as [Hc Hr].
  apply negb_true_iff in Hc. now rewrite Hc, IH.
Qed.

Lemma split_colon_fullKey name rest :
  colonFree name = true ->
  split_colon (fullKey name rest) = name :: split_colon rest.
Proof. intros H. unfold fullKey. simpl. now apply split_colon_append. Qed.

(** A key splits back into the name and the id it was made of when
    neither holds a ':'. *)
Lemma splitKey_fullKey name id :
  colonFree name = true -> colonFree id = true ->
  splitKey (fullKey name id) = (name, id).
Proof.
  intros Hn Hi. unfold splitKey.
  now rewrite split_colon_fullKey, split_colon_free.
Qed.

Lemma keyValue_fullKey p name id :
  colonFree name = true -> colonFree id = true ->
  keyValue p (fullKey name id) = rightsOf p name id.
Proof. intros Hn Hi. unfold keyValue. now rewrite splitKey_fullKey. Qed.

Lemma keyValue_empty k : keyValue [] k = [].
Proof. unfold keyValue. now destruct (splitKey k). Qed.

(** ** The claims *)

(** C1. Decoding a flags value [v], as [permissionsSet] does for every
    entry of the raw map, gives exactly the capabilities whose bit is set
    in [v] under create = 0x01, read = 0x02, update = 0x04, delete = 0x08:
    0x05 gives create and update, 0 gives the empty object, 0x0F gives all
    four; and no key is ever mapped to false. *)
Theorem C1_decode_exact (v : Z) :
  _types =
    [("create", 2 ^ 0); ("read", 2 ^ 1); ("update", 2 ^ 2);
     ("delete", 2 ^ 3)]%Z /\
  decodeRights v =
    ((if Z.testbit v 0 then [("create", true)] else []) ++
     (if Z.testbit v 1 then [("read", true)] else []) ++
     (if Z.testbit v 2 then [("update", true)] else []) ++
     (if Z.testbit v 3 then [("delete", true)] else []))%list /\
  (forall k, Obj.get (decodeRights v) k <> Some false) /\
  (forall list s name id,
     rightsOf (_permissions (permissionsSet list s)) name id =
     match Obj.get list name with
     | Some ids =>
         match Obj.get ids id with
         | Some flags => decodeRights flags
         | None => []
         end
     | None => []
     end) /\
  decodeRights 0x05 = [("create", true); ("update", true)] /\
  decodeRights 0 = [] /\
  decodeRights 0x0F =
    [("create", true); ("read", true); ("update", true); ("delete", true)].
Proof.
  split; [reflexivity|].
  split; [apply decodeRights_bits|].
  split; [apply decodeRights_only_true|].
  split; [|repeat split; reflexivity].
  intros list s name id. rewrite permissionsSet_eq.
  apply rightsOf_decode.
Qed.

(** Subscribing to all permissions, to a name and an id, or to the user
    adds the callback at the end of the list of that scope and calls it
    once with the current value, which the handle holds too. *)
Lemma subscribe_delivers cb (name id : string) s :
  (exists s1,
     permissionsSubscribe cb None None s =
       Ok (mkPSR (VPermissions (_permissions s))
             (UnsubPermissions cb None None)) s1 /\
     _permissionsSubscriptions s1 = push (_permissionsSubscriptions s) cb /\
     newEvents s s1 = [Call cb (VPermissions (_permissions s))]) /\
  (exists s1,
     permissionsSubscribe cb (Some name) (Some id) s =
       Ok (mkPSR (scopeValue (_permissions s) name id)
             (UnsubPermissions cb (Some name) (Some id))) s1 /\
     observersAt (_rightsSubscriptions s1) (fullKey name id) =
       push (observersAt (_rightsSubscriptions s) (fullKey name id)) cb /\
     newEvents s s1 = [Call cb (scopeValue (_permissions s) name id)]) /\
  (exists s1,
     subscribe cb s = Ok (mkSR (VUser (_user s)) (UnsubUser cb)) s1 /\
     _userSubscriptions s1 = push (_userSubscriptions s) cb /\
     newEvents s s1 = [Call cb (VUser (_user s))]).
Proof.
  split; [|split].
  - eexists. rewrite permissionsSubscribe_all. split; [reflexivity|].
    split; [reflexivity|]. now apply newEvents_emits.
  - eexists. rewrite permissionsSubscribe_id. split; [reflexivity|].
    split; [apply observersAt_set_eq|]. now apply newEvents_emits.
  - eexists. split; [reflexivity|]. split; [reflexivity|].
    unfold invoke. rewrite emit_emits. now apply newEvents_emits.
Qed.

(** With a name and no id the call throws whenever the name is not
    already a key of [_rightsSubscriptions]: nothing is registered and the
    callback is not called. *)
Lemma permissionsSubscribe_name_throws cb name s :
  Obj.get (_rightsSubscriptions s) name = None ->
  exists s1,
    permissionsSubscribe cb (Some name) None s = Throw TypeError s1 /\
    trace s1 = trace s /\
    _rightsSubscriptions s1 = _rightsSubscriptions s /\
    _permissionsSubscriptions s1 = _permissionsSubscriptions s.
Proof.
  intros H. rewrite permissionsSubscribe_name. cbn zeta. rewrite H.
  eexists. split; [reflexivity|]. repeat split.
Qed.

Lemma fullKey_has_colon name id : colonFree (fullKey name id) = false.
Proof.
  unfold fullKey. induction name as [|c r IH]; [reflexivity|].
  cbn [append colonFree] in *. rewrite IH. apply andb_false_r.
Qed.

Lemma forallb_filter_keep (p q : string -> bool) ks :
  forallb p ks = true -> forallb p (filter q ks) = true.
Proof.
  induction ks as [|x r IH]; simpl; [reflexivity|].
  intros H. apply andb_true_iff in H. destruct H as [Hx Hr].
  destruct (q x); simpl; [rewrite Hx|]; auto.
Qed.

Lemma step_keysHaveColon s o :
  keysHaveColon (_rightsSubscriptions s) = true ->
  keysHaveColon (_rightsSubscriptions (step s o)) = true.
Proof.
  unfold keysHaveColon. intros H.
  destruct (step_registry s o)
    as [E|[(k & l & f & E & Hk)|(k & f & Hin & E)]]; rewrite E.
  - exact H.
  - rewrite Obj_keys_set.
    destruct (Obj.has (_rightsSubscriptions s) k) eqn:Eh; [exact H|].
    destruct Hk as [Hk|(name & id & ->)]; [discriminate|].
    rewrite forallb_app, H. simpl. now rewrite fullKey_has_colon.
  - unfold removeObserver.
    destruct (removeFirst f (observersAt (_rightsSubscriptions s) k)).
    + rewrite Obj_keys_delete. now apply forallb_filter_keep.
    + rewrite Obj_keys_set.
      assert (Hh : Obj.has (_rightsSubscriptions s) k = true).
      { unfold Obj.has, observersAt in *.
        destruct (Obj.get (_rightsSubscriptions s) k);
          [reflexivity | destruct Hin]. }
      now rewrite Hh.
Qed.

Lemma run_keysHaveColon ops :
  forall s,
    keysHaveColon (_rightsSubscriptions s) = true ->
    keysHaveColon (_rightsSubscriptions (run ops s)) = true.
Proof.
  induction ops as [|o r IH]; intros s H; simpl; [assumption|].
  apply IH. now apply step_keysHaveColon.
Qed.

(** In every state the module reaches, subscribing with a name that has
    no ':' and no id throws: no run makes such a name a key of
    [_rightsSubscriptions]. *)
Lemma permissionsSubscribe_name_unusable ops cb name :
  colonFree name = true ->
  exists s1,
    permissionsSubscribe cb (Some name) None (run ops init) =
      Throw TypeError s1 /\
    trace s1 = trace (run ops init) /\
    _rightsSubscriptions s1 = _rightsSubscriptions (run ops init) /\
    _permissionsSubscriptions s1 = _permissionsSubscriptions (run ops init).
Proof.
  intros Hc. apply permissionsSubscribe_name_throws.
  destruct (Obj.get (_rightsSubscriptions (run ops init)) name) eqn:E;
    [|reflexivity].
  exfalso.
  assert (Hin : In name (Obj.keys (_rightsSubscriptions (run ops init))))
    by (apply Obj_get_keys; congruence).
  pose proof (run_keysHaveColon ops init eq_refl) as Hk.
  unfold keysHaveColon in Hk. rewrite forallb_forall in Hk.
  apply Hk in Hin. rewrite Hc in Hin. discriminate.
Qed.

(** C2, at the input where the code departs from it: subscribing callback
    1 to the permission "docs" with no id on the initial state throws a
    TypeError; the callback is neither registered nor called, and an
    empty list is left under "docs" in [_rightsAllSubscriptions]. *)
Theorem C2_subscribe_name_only_throws :
  permissionsSubscribe 1 (Some "docs") None init =
    Throw TypeError (with_rightsAllSubscriptions init [("docs", [])]) /\
  returned (permissionsSubscribe 1 (Some "docs") None init) = None /\
  trace (state_of (permissionsSubscribe 1 (Some "docs") None init)) = [] /\
  _rightsSubscriptions
    (state_of (permissionsSubscribe 1 (Some "docs") None init)) = [].
Proof. repeat split. Qed.

(** The key of [RIGHTS_ALL_ID]: unsubscribing with a name and no id and
    unsubscribing with that name and [RIGHTS_ALL_ID] are the same call on
    the same key; a callback subscribed with the name and [RIGHTS_ALL_ID]
    is registered under that key, and the unsubscribe of its handle, like
    the unsubscribe without an id, removes one registration of it, the
    first; subscribing with the name alone never registers under that
    key. *)
Theorem C3_all_id_key cb name s :
  let K := fullKey name RIGHTS_ALL_ID in
  permissionsUnsubscribe cb (Some name) None s =
    permissionsUnsubscribe cb (Some name) (Some RIGHTS_ALL_ID) s /\
  (exists h s1,
     permissionsSubscribe cb (Some name) (Some RIGHTS_ALL_ID) s = Ok h s1 /\
     observersAt (_rightsSubscriptions s1) K =
       push (observersAt (_rightsSubscriptions s) K) cb /\
     callUnsubscribe (psr_unsubscribe h) s1 =
       snd (permissionsUnsubscribe cb (Some name) None s1) /\
     fst (permissionsUnsubscribe cb (Some name) None s1) = true /\
     observersAt
       (_rightsSubscriptions
          (snd (permissionsUnsubscribe cb (Some name) None s1))) K =
       removeFirst cb (push (observersAt (_rightsSubscriptions s) K) cb)) /\
  observersAt
    (_rightsSubscriptions
       (state_of (permissionsSubscribe cb (Some name) None s))) K =
    observersAt (_rightsSubscriptions s) K.
Proof.
  cbn zeta. split; [reflexivity|]. split.
  - rewrite permissionsSubscribe_id. do 2 eexists.
    split; [reflexivity|].
    set (K := fullKey name RIGHTS_ALL_ID).
    set (s1 := emits _ _).
    assert (Hat : observersAt (_rightsSubscriptions s1) K =
                  push (observersAt (_rightsSubscriptions s) K) cb)
      by apply observersAt_set_eq.
    assert (Hin : In cb (observersAt (_rightsSubscriptions s1)
                           (unsubscribeKey name None))).
    { unfold unsubscribeKey. fold K. rewrite Hat. unfold push.
      apply in_or_app. right. now left. }
    split; [exact Hat|]. split; [reflexivity|].
    rewrite permissionsUnsubscribe_found by exact Hin.
    split; [reflexivity|]. cbn [snd with_rightsSubscriptions
                                _rightsSubscriptions].
    unfold unsubscribeKey. fold K. now rewrite removeObserver_at, Hat.
  - rewrite permissionsSubscribe_name. cbn zeta.
    destruct (Obj.get (_rightsSubscriptions s) name) as [l|];
      [|reflexivity].
    cbn [state_of emits with_rightsSubscriptions _rightsSubscriptions].
    apply observersAt_set_neq, fullKey_neq_name.
Qed.

(** What [permissionsSet] does: the map is decoded afresh from the raw
    map, whatever it was before; the observers of all permissions are
    called with the new map, then, key by key, the observers of each key
    of the registry with the rights found for the split key; the
    subscriptions stay as they are. *)
Lemma permissionsSet_notifies list s :
  _permissions (permissionsSet list s) = decodePermissions list /\
  (forall name,
     Obj.get (_permissions (permissionsSet list s)) name =
     option_map decodeIds (Obj.get list name)) /\
  newEvents s (permissionsSet list s) =
    permissionEvents (decodePermissions list)
      (_permissionsSubscriptions s) (_rightsSubscriptions s) /\
  frame s (permissionsSet list s).
Proof.
  split; [now rewrite permissionsSet_eq|].
  split; [intros name; rewrite permissionsSet_eq;
          apply decodePermissions_get|].
  split; [|apply frame_permissionsSet].
  rewrite permissionsSet_eq. now apply newEvents_emits.
Qed.

(** C4, at the input where the code departs from it: callback 1 observes
    the scope ("docs", "a:b"); the permissions are set from
    [{ docs: { "a:b": 1 } }]. The new map grants create on that scope, as
    a subscription made afterwards is told, but the observer is called
    with the empty object: the key "docs:a:b" is split into "docs" and
    "a". *)
Theorem C4_key_with_colon_gets_empty :
  let s0 := state_of (permissionsSubscribe 1 (Some "docs") (Some "a:b") init) in
  let raw := [("docs", [("a:b", 1%Z)])] in
  let s1 := permissionsSet raw s0 in
  _rightsSubscriptions s0 = [("docs:a:b", [1%nat])] /\
  newEvents s0 s1 = [Call 1 (VRights [])] /\
  rightsOf (_permissions s1) "docs" "a:b" = [("create", true)] /\
  option_map psr_data
    (returned (permissionsSubscribe 2 (Some "docs") (Some "a:b") s1)) =
    Some (VRights [("create", true)]).
Proof. repeat split. Qed.

Lemma unsubscribeFrom_missing sc f s :
  ~ In f (observers sc s) -> unsubscribeFrom sc f s = (false, s).
Proof.
  destruct sc as [| |name id]; cbn [observers unsubscribeFrom]; intros H.
  - now apply unsubscribe_missing.
  - now apply permissionsUnsubscribe_all_missing.
  - now apply permissionsUnsubscribe_missing.
Qed.

Lemma unsubscribeFrom_found sc f s :
  In f (observers sc s) ->
  exists s1,
    unsubscribeFrom sc f s = (true, s1) /\
    observers sc s1 = removeFirst f (observers sc s) /\
    (wf s = true -> wf s1 = true /\ registered sc f s = S (registered sc f s1)).
Proof.
  destruct sc as [| |name id];
    cbn [observers unsubscribeFrom registered]; intros Hin.
  - rewrite unsubscribe_found by assumption. eexists.
    split; [reflexivity|]. split; [reflexivity|]. intros Hw.
    split; [exact Hw|]. simpl. now apply count_removeFirst.
  - rewrite permissionsUnsubscribe_all_found by assumption. eexists.
    split; [reflexivity|]. split; [reflexivity|]. intros Hw.
    split; [exact Hw|]. simpl. rewrite (count_removeFirst _ _ Hin). lia.
  - rewrite permissionsUnsubscribe_found by assumption. eexists.
    split; [reflexivity|].
    cbn [with_rightsSubscriptions _rightsSubscriptions
         _permissionsSubscriptions].
    split; [apply removeObserver_at|]. intros Hw.
    unfold wf in *. cbn [_rightsSubscriptions].
    split; [now apply removeObserver_unique|].
    pose proof (removeObserver_occurrences _ _ _ f Hw Hin) as Ho.
    pose proof (count_removeFirst _ _ Hin) as Hc. lia.
Qed.

Lemma calls_replaced sc f u list s :
  calls f (newEvents s (replaced sc u list s)) = registered sc f s.
Proof.
  destruct sc as [| |name id]; simpl.
  - rewrite set_eq, newEvents_emits by reflexivity. apply calls_userEvents.
  - rewrite permissionsSet_eq, newEvents_emits by reflexivity.
    apply calls_permissionEvents.
  - rewrite permissionsSet_eq, newEvents_emits by reflexivity.
    apply calls_permissionEvents.
Qed.

(** A callback subscribed to the user, to all permissions or to a name and
    an id is in the list the unsubscribe call with the same arguments
    addresses; with no id that call addresses the list of
    [RIGHTS_ALL_ID]. *)
Lemma subscribed_is_observer f (name id : string) s :
  In f (observers UserScope (state_of (subscribe f s))) /\
  In f (observers AllPermissions
          (state_of (permissionsSubscribe f None None s))) /\
  In f (observers (Scoped name (Some id))
          (state_of (permissionsSubscribe f (Some name) (Some id) s))) /\
  In f (observers (Scoped name None)
          (state_of
             (permissionsSubscribe f (Some name) (Some RIGHTS_ALL_ID) s))).
Proof.
  assert (Hp : forall l, In f (push l f))
    by (intros l; unfold push; apply in_or_app; right; now left).
  repeat split.
  - apply Hp.
  - apply Hp.
  - rewrite permissionsSubscribe_id. cbn [observers state_of emits
      with_rightsSubscriptions _rightsSubscriptions unsubscribeKey].
    rewrite observersAt_set_eq. apply Hp.
  - rewrite permissionsSubscribe_id. cbn [observers state_of emits
      with_rightsSubscriptions _rightsSubscriptions unsubscribeKey].
    rewrite observersAt_set_eq. apply Hp.
Qed.

(** Unsubscribing, by the list addressed. A callback found in the list
    an unsubscribe call addresses (the
    observers of the user, of all permissions, or of a name and an id) is
    removed by identity, its first occurrence only, and the call returns
    true. Every replacement of the store calls the callback once for each
    of its registrations, so one fewer afterwards, and no more once none
    is left. A second call returns true only if the callback was there
    twice; registered once, the second call returns false and changes
    nothing. *)
Theorem C5_unsubscribe_first_occurrence sc f s :
  wf s = true ->
  In f (observers sc s) ->
  exists s1,
    unsubscribeFrom sc f s = (true, s1) /\
    observers sc s1 = removeFirst f (observers sc s) /\
    count f (observers sc s) = S (count f (observers sc s1)) /\
    registered sc f s = S (registered sc f s1) /\
    (forall u list,
       calls f (newEvents s (replaced sc u list s)) = registered sc f s) /\
    (forall u list,
       calls f (newEvents s1 (replaced sc u list s1)) = registered sc f s1) /\
    (registered sc f s = 1%nat ->
     forall u list, calls f (newEvents s1 (replaced sc u list s1)) = 0%nat) /\
    fst (unsubscribeFrom sc f s1) = (2 <=? count f (observers sc s))%nat /\
    (count f (observers sc s) = 1%nat ->
     unsubscribeFrom sc f s1 = (false, s1)) /\
    wf s1 = true.
Proof.
  intros Hw Hin.
  destruct (unsubscribeFrom_found sc f s Hin) as (s1 & E & Ho & Hreg).
  destruct (Hreg Hw) as [Hw1 Hr].
  pose proof (count_removeFirst _ _ Hin) as Hc. rewrite <- Ho in Hc.
  exists s1. repeat split; try assumption.
  - intros u list. apply calls_replaced.
  - intros u list. apply calls_replaced.
  - intros H1 u list. rewrite calls_replaced. lia.
  - destruct (in_dec Nat.eq_dec f (observers sc s1)) as [Hin1|Hn1].
    + destruct (unsubscribeFrom_found sc f s1 Hin1) as (s2 & E2 & _).
      rewrite E2. cbn [fst]. apply count_In in Hin1.
      symmetry. apply Nat.leb_le. lia.
    + rewrite unsubscribeFrom_missing by assumption. cbn [fst].
      assert (count f (observers sc s1) = 0%nat).
      { destruct (count f (observers sc s1)) eqn:E0; [reflexivity|].
        exfalso. apply Hn1, count_In. lia. }
      symmetry. apply Nat.leb_gt. lia.
  - intros H1. apply unsubscribeFrom_missing. intros Hin1.
    apply count_In in Hin1. lia.
Qed.

(** ** Signing out and losing the session *)

Lemma keyScopeValue_empty k :
  inherited (fst (splitKey k)) = false -> keyScopeValue [] k = VRights [].
Proof.
  unfold keyScopeValue. destruct (splitKey k) as [name id].
  cbn [fst scopeValue Obj.get]. now intros ->.
Qed.

(** The state after [brain.session(null); set(false); permissionsSet({})]. *)
Lemma signed_out_eq s :
  permissionsSet [] (set None (with_session s None)) =
  emits (with_permissions (with_user (with_session s None) None) [])
    (userEvents None (_userSubscriptions s) ++
     permissionEvents [] (_permissionsSubscriptions s)
       (_rightsSubscriptions s)).
Proof.
  rewrite permissionsSet_eq, set_eq. cbn [decodePermissions Obj.keys map
    fold_left]. unfold with_permissions, emits. simpl.
  now rewrite app_assoc.
Qed.

Lemma noSessionCalls_app a b :
  noSessionCalls (a ++ b) = (noSessionCalls a ++ noSessionCalls b)%list.
Proof. apply flat_map_app. Qed.

Lemma noSessionCalls_map_Call (v : callback -> value) l :
  noSessionCalls (map (fun f => Call f (v f)) l) = [].
Proof. induction l; simpl; auto. Qed.

Lemma noSessionCalls_permissionEvents p subs r :
  noSessionCalls (permissionEvents p subs r) = [].
Proof.
  unfold permissionEvents.
  rewrite noSessionCalls_app, (noSessionCalls_map_Call (fun _ => VPermissions p)).
  simpl. induction (Obj.keys r) as [|k ks IH]; [reflexivity|].
  simpl. rewrite noSessionCalls_app, IH, app_nil_r.
  apply (noSessionCalls_map_Call (fun _ => keyScopeValue p k)).
Qed.

Lemma step_noSession s o :
  registers o = false -> _noSession (step s o) = _noSession s.
Proof.
  assert (Hunp : forall cb name id,
    _noSession (snd (permissionsUnsubscribe cb name id s)) = _noSession s).
  { intros cb [name|] id.
    - destruct (in_dec Nat.eq_dec cb
                  (observersAt (_rightsSubscriptions s)
                     (unsubscribeKey name id))) as [Hin|Hn].
      + now rewrite permissionsUnsubscribe_found.
      + now rewrite permissionsUnsubscribe_missing.
    - destruct (in_dec Nat.eq_dec cb (_permissionsSubscriptions s)).
      + now rewrite permissionsUnsubscribe_all_found.
      + now rewrite permissionsUnsubscribe_all_missing. }
  assert (Hun : forall cb, _noSession (snd (unsubscribe cb s)) = _noSession s).
  { intros cb. destruct (in_dec Nat.eq_dec cb (_userSubscriptions s)).
    - now rewrite unsubscribe_found.
    - now rewrite unsubscribe_missing. }
  destruct o as [v|cb name id|cb name id|cb|cb|u| |r|r|u c r]; cbn [step];
    intros Hreg.
  - destruct v; try reflexivity. discriminate.
  - destruct name as [name|]; [destruct id as [id|]|].
    + now rewrite permissionsSubscribe_id.
    + rewrite permissionsSubscribe_name. cbn zeta.
      now destruct (Obj.get (_rightsSubscriptions s) name).
    + reflexivity.
  - apply Hunp.
  - reflexivity.
  - apply Hun.
  - destruct u as [cb name id|cb]; [apply Hunp | apply Hun].
  - apply (frame_noSessionHandler s).
  - apply (frame_update r s).
  - apply (frame_signout r s).
  - apply (frame_signin u c r s).
Qed.

Lemma run_noSession ops :
  forall s,
    existsb registers ops = false -> _noSession (run ops s) = _noSession s.
Proof.
  induction ops as [|o r IH]; intros s H; simpl in *; [reflexivity|].
  apply orb_false_iff in H. destruct H as [Ho Hr].
  rewrite IH by assumption. now apply step_noSession.
Qed.

(** What [signout] does. When the request resolves with true, the
    session held by brain is cleared, the user becomes false and the
    permissions the empty map; the observers of the user are called with
    false, those of all permissions with the empty map and the observers
    of every key of the registry with what the empty map gives for the
    key, the empty object unless the name the key splits into is one
    [Object.prototype] has; the promise resolves with true. It resolves
    with false, nothing changed, when the request does. When the request
    is rejected the promise is rejected with the same error and the state
    is not changed. *)
Lemma signout_effect s e :
  (exists s1,
     signout (Resolved true) s = (s1, Resolved true) /\
     brain_session s1 = None /\
     _user s1 = None /\
     _permissions s1 = [] /\
     newEvents s s1 =
       (userEvents None (_userSubscriptions s) ++
        permissionEvents [] (_permissionsSubscriptions s)
          (_rightsSubscriptions s))%list /\
     frame s s1) /\
  (forall k,
     inherited (fst (splitKey k)) = false ->
     keyScopeValue [] k = VRights []) /\
  signout (Resolved false) s = (s, Resolved false) /\
  signout (Rejected e) s = (s, Rejected e).
Proof.
  split; [|split; [apply keyScopeValue_empty | split; reflexivity]].
  eexists. cbn [signout]. rewrite signed_out_eq.
  split; [reflexivity|]. repeat split.
  now rewrite newEvents_emits by reflexivity.
Qed.

(** C6, at the input where the code departs from it: callback 1 observes
    the scope ("constructor", "name") and the sign-out request resolves
    with true. The permissions become the empty map, but the observer is
    not called with an empty object: "constructor" is found in the empty
    map and "name" in what it holds there, through the prototype chain,
    and the observer is handed the clone of that member, the string
    "Object". An observer of ("docs", "e1") is called with the empty
    object. *)
Theorem C6_inherited_scope_not_empty :
  let s0 :=
    state_of (permissionsSubscribe 1 (Some "constructor") (Some "name") init) in
  let s1 := fst (signout (Resolved true) s0) in
  let t0 := state_of (permissionsSubscribe 1 (Some "docs") (Some "e1") init) in
  _rightsSubscriptions s0 = [("constructor:name", [1%nat])] /\
  snd (signout (Resolved true) s0) = Resolved true /\
  _permissions s1 = [] /\
  newEvents s0 s1 = [Call 1 (VInherited ["constructor"; "name"])] /\
  newEvents s0 s1 <> [Call 1 (VRights [])] /\
  newEvents t0 (fst (signout (Resolved true) t0)) = [Call 1 (VRights [])].
Proof.
  cbn zeta. split; [reflexivity|]. split; [reflexivity|].
  split; [reflexivity|]. split; [reflexivity|].
  split; [discriminate | reflexivity].
Qed.

(** C7. When the fetch of [update()] is rejected with an error without a
    [handle], the promise of [update()] is rejected with that error and
    the state is not changed. When the error has a [handle], the handle
    is called, with the code and the message of the error, and the promise
    is not rejected (nor resolved); the user, the permissions and the
    observers stay as they are. *)
Theorem C7_update_rejection c m s :
  update (Rejected (mkError c m None)) s = (s, Rejected (mkError c m None)) /\
  (forall h,
     exists s1,
       update (Rejected (mkError c m (Some h))) s = (s1, Pending) /\
       newEvents s s1 = [CallHandle h c m] /\
       _user s1 = _user s /\
       _permissions s1 = _permissions s /\
       brain_session s1 = brain_session s /\
       frame s s1).
Proof.
  split; [reflexivity|]. intros h. eexists.
  split; [reflexivity|]. cbn [code msg]. rewrite emit_emits.
  split; [now apply newEvents_emits|]. repeat split.
Qed.

(** The no-session handler, by the callback registered. *)
Lemma noSessionHandler_calls s f :
  _noSession s = JFunction f ->
  exists s1,
    noSessionHandler s = Ok tt s1 /\
    noSessionCalls (newEvents s s1) = [f] /\
    brain_session s1 = None /\ _user s1 = None /\ _permissions s1 = [].
Proof.
  intros H. unfold noSessionHandler. rewrite signed_out_eq.
  cbn [_noSession emits with_permissions with_user with_session].
  rewrite H. eexists. split; [reflexivity|].
  rewrite emit_emits, emits_emits.
  rewrite newEvents_emits by reflexivity.
  split; [|repeat split].
  rewrite !noSessionCalls_app, noSessionCalls_permissionEvents.
  unfold userEvents. now rewrite (noSessionCalls_map_Call (fun _ => VUser None)).
Qed.

(** C8. [onNoSession] called with anything but a function throws at
    once and leaves the state, the registered callback included, as it
    was. Called with a function it replaces the callback registered
    before, whatever it was; when the session is lost later, after any
    steps that register no other callback, that function is the one
    no-session callback called. *)
Theorem C8_onNoSession v f ops s :
  (typeof v <> "function" ->
   onNoSession v s =
     Throw (Error "onNoSession() called with an invalid callback") s) /\
  onNoSession (JFunction f) s = Ok tt (with_noSession s (JFunction f)) /\
  (existsb registers ops = false ->
   let s1 := run ops (state_of (onNoSession (JFunction f) s)) in
   exists s2,
     noSessionHandler s1 = Ok tt s2 /\
     noSessionCalls (newEvents s1 s2) = [f]).
Proof.
  split; [|split; [reflexivity|]].
  - intros H. unfold onNoSession.
    destruct (String.eqb_spec (typeof v) "function"); [contradiction|].
    reflexivity.
  - intros Hops. cbn zeta.
    destruct (@noSessionHandler_calls
                (run ops (state_of (onNoSession (JFunction f) s))) f)
      as (s2 & E & Hc & _).
    + now rewrite run_noSession.
    + exists s2. now split.
Qed.

(** The registry [_rightsSubscriptions]. In every state the module
    reaches, no key of
    [_rightsSubscriptions] holds an empty list. When the one observer
    left under a key unsubscribes, the key is deleted from the registry;
    a callback subscribed under that key afterwards is alone in a new
    list. *)
Theorem C9_no_empty_list ops :
  let s := run ops init in
  (forall k, Obj.get (_rightsSubscriptions s) k <> Some []) /\
  (forall f name id,
     let K := unsubscribeKey name id in
     let sID := match id with None => RIGHTS_ALL_ID | Some i => i end in
     observersAt (_rightsSubscriptions s) K = [f] ->
     exists s1,
       permissionsUnsubscribe f (Some name) id s = (true, s1) /\
       ~ In K (Obj.keys (_rightsSubscriptions s1)) /\
       Obj.has (_rightsSubscriptions s1) K = false /\
       (forall k, Obj.get (_rightsSubscriptions s1) k <> Some []) /\
       (forall g,
          observersAt
            (_rightsSubscriptions
               (state_of
                  (permissionsSubscribe g (Some name) (Some sID) s1))) K =
          [g])).
Proof.
  cbn zeta. destruct (run_invariant ops init init_invariant) as [Hw Hn].
  split; [exact Hn|].
  intros f name id He.
  assert (Hin : In f (observersAt (_rightsSubscriptions (run ops init))
                        (unsubscribeKey name id)))
    by (rewrite He; now left).
  assert (Hr : removeFirst f
                 (observersAt (_rightsSubscriptions (run ops init))
                    (unsubscribeKey name id)) = []).
  { rewrite He. simpl. now rewrite Nat.eqb_refl. }
  rewrite permissionsUnsubscribe_found by exact Hin.
  eexists. split; [reflexivity|].
  cbn [with_rightsSubscriptions _rightsSubscriptions].
  destruct (removeObserver_last _ _ _ Hr) as [Hk Hh].
  split; [exact Hk|]. split; [exact Hh|].
  split; [now apply noEmptyList_removeObserver|].
  intros g. rewrite permissionsSubscribe_id.
  cbn [state_of emits with_rightsSubscriptions _rightsSubscriptions].
  change (fullKey name
            match id with Some i => i | None => RIGHTS_ALL_ID end)
    with (unsubscribeKey name id).
  rewrite observersAt_set_eq, removeObserver_at, Hr. reflexivity.
Qed.

(** C10. When the fetch of [update()] resolves with a falsy value, the
    promise of [update()] is neither resolved nor rejected and the state
    is not changed; so it is for [signin] with credentials when the
    sign-in request resolves with a falsy value. *)
Theorem C10_falsy_never_settles (v : falsy) (c : signinStruct)
  (read_user : settled (fetched userType)) (s : state) :
  update (Resolved (Falsy v)) s = (s, Pending) /\
  signin (UsingCredentials c) (Resolved (Falsy v)) read_user s =
    (s, Pending).
Proof. split; reflexivity. Qed.

(** ** Fetching the user and signing in *)

Lemma with_permissions_emits s es p :
  with_permissions (emits s es) p = emits (with_permissions s p) es.
Proof. reflexivity. Qed.

Lemma update_success_eq data s :
  update (Resolved (Truthy data)) s =
  (emits
     (with_permissions (with_user s (Some data))
        (decodePermissions
           (match permissions data with Some l => l | None => [] end)))
     (userEvents (Some data) (_userSubscriptions s) ++
      permissionEvents
        (decodePermissions
           (match permissions data with Some l => l | None => [] end))
        (_permissionsSubscriptions s) (_rightsSubscriptions s)),
   Resolved data).
Proof.
  cbn [update]. rewrite permissionsSet_eq, set_eq.
  rewrite with_permissions_emits, emits_emits. reflexivity.
Qed.

(** X1. When the fetch of [update()] resolves with a user, the user is
    stored and the permissions are replaced by the decoded permissions of
    that user, by the empty map when the user has no [permissions] field;
    the observers of the user are called first, with the user, then the
    observers of the permissions; the session and the observers are left
    alone and the promise resolves with the user. *)
Theorem X1_update_success data s :
  let p :=
    decodePermissions
      (match permissions data with Some l => l | None => [] end) in
  exists s1,
    update (Resolved (Truthy data)) s = (s1, Resolved data) /\
    _user s1 = Some data /\
    _permissions s1 = p /\
    brain_session s1 = brain_session s /\
    newEvents s s1 =
      (userEvents (Some data) (_userSubscriptions s) ++
       permissionEvents p (_permissionsSubscriptions s)
         (_rightsSubscriptions s))%list /\
    frame s s1.
Proof.
  cbn zeta. rewrite update_success_eq. eexists.
  split; [reflexivity|]. repeat split.
  now apply newEvents_emits.
Qed.

(** X2. A rejected fetch inside [signin] is not passed on: with a session
    token, or with credentials once the sign-in request has succeeded,
    the promise of [signin] stays unsettled, whether the error has a
    [handle] or not, while the session given to brain stays set and the
    user and the permissions stay as they were. Only a rejected sign-in
    request rejects the promise, and then nothing is changed. *)
Theorem X2_signin_fetch_rejected token cr data e c r s :
  (exists s1,
     signin (UsingSession token) c (Rejected e) s = (s1, Pending) /\
     brain_session s1 = Some token /\
     _user s1 = _user s /\ _permissions s1 = _permissions s /\
     frame s s1) /\
  (exists s1,
     signin (UsingCredentials cr) (Resolved (Truthy data)) (Rejected e) s =
       (s1, Pending) /\
     brain_session s1 = Some (session data) /\
     _user s1 = _user s /\ _permissions s1 = _permissions s /\
     frame s s1) /\
  signin (UsingCredentials cr) (Rejected e) r s = (s, Rejected e).
Proof.
  split; [|split; [|reflexivity]].
  - cbn [signin update]. destruct (handle e); eexists;
      (split; [reflexivity | repeat split]).
  - cbn [signin update]. destruct (handle e); eexists;
      (split; [reflexivity | repeat split]).
Qed.

(** X3. When the fetch inside [signin] resolves with a user, [signin]
    resolves with the session and that user: the token it was given, or
    the session of the sign-in response; brain holds that session, the
    user is stored and the permissions are those of the user. *)
Theorem X3_signin_success token cr data u c s :
  let p :=
    decodePermissions
      (match permissions u with Some l => l | None => [] end) in
  (exists s1,
     signin (UsingSession token) c (Resolved (Truthy u)) s =
       (s1, Resolved (mkSigninReturn token u)) /\
     brain_session s1 = Some token /\
     _user s1 = Some u /\ _permissions s1 = p /\ frame s s1) /\
  (exists s1,
     signin (UsingCredentials cr) (Resolved (Truthy data))
       (Resolved (Truthy u)) s =
       (s1, Resolved (mkSigninReturn (session data) u)) /\
     brain_session s1 = Some (session data) /\
     _user s1 = Some u /\ _permissions s1 = p /\ frame s s1).
Proof.
  cbn zeta. split.
  - unfold signin. rewrite update_success_eq. eexists.
    split; [reflexivity | repeat split].
  - unfold signin. rewrite update_success_eq. eexists.
    split; [reflexivity | repeat split].
Qed.

(** X4. Setting the permissions twice from the same raw map gives the same
    map and makes the same calls, in the same order, the second time; and
    whatever was set before, the map is the decoded raw map set last. *)
Theorem X4_permissionsSet_again list list0 s :
  let s1 := permissionsSet list s in
  let s2 := permissionsSet list s1 in
  _permissions s2 = _permissions s1 /\
  newEvents s1 s2 = newEvents s s1 /\
  frame s s2 /\
  _permissions (permissionsSet list (permissionsSet list0 s)) =
    decodePermissions list.
Proof.
  cbn zeta. rewrite !permissionsSet_eq.
  split; [reflexivity|]. split; [|split; [repeat split | reflexivity]].
  rewrite !newEvents_emits by reflexivity. reflexivity.
Qed.

(** ** What an observer is called with *)

Lemma valuesFor_app f a b :
  valuesFor f (a ++ b) = (valuesFor f a ++ valuesFor f b)%list.
Proof. apply flat_map_app. Qed.

Lemma valuesFor_map_Call f v l :
  valuesFor f (map (fun g => Call g v) l) = repeat v (count f l).
Proof.
  induction l as [|g r IH]; [reflexivity|].
  rewrite count_cons. cbn [map valuesFor flat_map].
  fold (valuesFor f (map (fun g0 => Call g0 v) r)). rewrite IH.
  destruct (Nat.eqb g f); reflexivity.
Qed.



Lemma count_notin f l : ~ In f l -> count f l = 0%nat.
Proof.
  intros H. destruct (count f l) eqn:E; [reflexivity|].
  exfalso. apply H, count_In. lia.
Qed.




(** ** Subscribing and taking it back *)

Lemma Obj_delete_absent (V : Type) (o : Obj.t V) k :
  Obj.get o k = None -> Obj.delete o k = o.
Proof.
  unfold Obj.delete. induction o as [|[k' v'] r IH]; [reflexivity|].
  cbn [Obj.get filter fst]. destruct (String.eqb k' k); [discriminate|].
  intros H. cbn [negb]. now rewrite IH.
Qed.

Lemma Obj_set_same (V : Type) (o : Obj.t V) k v :
  Obj.get o k = Some v -> Obj.set o k v = o.
Proof.
  induction o as [|[k' v'] r IH]; [discriminate|].
  cbn [Obj.get Obj.set]. destruct (String.eqb k' k) eqn:E.
  - apply String.eqb_eq in E. intros [= ->]. now subst.
  - intros H. now rewrite IH.
Qed.

(** Pushing a callback that is not there under a key and removing it again
    gives the registry back, when the registry holds no empty list. *)
Lemma removeObserver_push r k f :
  noEmptyList r -> ~ In f (observersAt r k) ->
  removeObserver (Obj.set r k (push (observersAt r k) f)) k f = r.
Proof.
  intros Hne Hn. unfold removeObserver.
  rewrite observersAt_set_eq, removeFirst_push by assumption.
  unfold observersAt in *.
  destruct (Obj.get r k) as [[|g l]|] eqn:E.
  - exfalso. now apply (Hne k).
  - rewrite Obj_set_set. now apply Obj_set_same.
  - rewrite Obj_delete_set. now apply Obj_delete_absent.
Qed.

Lemma with_rightsSubscriptions_emits s r es r' :
  with_rightsSubscriptions (emits (with_rightsSubscriptions s r) es) r' =
  emits (with_rightsSubscriptions s r') es.
Proof. reflexivity. Qed.

Lemma rightsSubscriptions_emits_with s r es :
  _rightsSubscriptions (emits (with_rightsSubscriptions s r) es) = r.
Proof. reflexivity. Qed.

Lemma subscribe_id_undone f name id s :
  noEmptyList (_rightsSubscriptions s) ->
  ~ In f (observersAt (_rightsSubscriptions s) (fullKey name id)) ->
  exists h s1,
    permissionsSubscribe f (Some name) (Some id) s = Ok h s1 /\
    psr_unsubscribe h = UnsubPermissions f (Some name) (Some id) /\
    callUnsubscribe (psr_unsubscribe h) s1 =
      emits s [Call f (scopeValue (_permissions s) name id)].
Proof.
  intros Hne Hn. rewrite permissionsSubscribe_id. do 2 eexists.
  split; [reflexivity|]. split; [reflexivity|].
  cbn [psr_unsubscribe callUnsubscribe].
  rewrite permissionsUnsubscribe_found.
  - cbn [snd]. rewrite rightsSubscriptions_emits_with.
    change (unsubscribeKey name (Some id)) with (fullKey name id).
    rewrite removeObserver_push by assumption.
    rewrite with_rightsSubscriptions_emits.
    now rewrite with_rightsSubscriptions_same.
  - cbn [unsubscribeKey emits _rightsSubscriptions with_rightsSubscriptions].
    rewrite observersAt_set_eq. unfold push. apply in_or_app.
    right. now left.
Qed.

(** X9. The [unsubscribe] of the handle a subscription returns takes the
    subscription back: for a callback that was not in the list before, the
    state after subscribing and calling it is the state before with the
    one call of the callback added, for the observers of a name and an id
    (in any state the module reaches), of all permissions and of the
    user. *)
Theorem X9_handle_takes_back ops f name id s :
  (~ In f (observersAt (_rightsSubscriptions (run ops init))
             (fullKey name id)) ->
   exists h s1,
     permissionsSubscribe f (Some name) (Some id) (run ops init) = Ok h s1 /\
     callUnsubscribe (psr_unsubscribe h) s1 =
       emits (run ops init)
         [Call f (scopeValue (_permissions (run ops init)) name id)]) /\
  (~ In f (_permissionsSubscriptions s) ->
   exists h s1,
     permissionsSubscribe f None None s = Ok h s1 /\
     callUnsubscribe (psr_unsubscribe h) s1 =
       emits s [Call f (VPermissions (_permissions s))]) /\
  (~ In f (_userSubscriptions s) ->
   exists h s1,
     subscribe f s = Ok h s1 /\
     callUnsubscribe (sr_unsubscribe h) s1 =
       emits s [Call f (VUser (_user s))]).
Proof.
  split; [|split].
  - intros Hn.
    destruct (run_invariant ops init init_invariant) as [_ Hne].
    destruct (subscribe_id_undone f name id _ Hne Hn) as (h & s1 & E & _ & Hu).
    now exists h, s1.
  - intros Hn. do 2 eexists. split; [reflexivity|].
    cbn [psr_unsubscribe callUnsubscribe].
    rewrite permissionsUnsubscribe_all_found.
    + cbn [snd invoke emit with_permissionsSubscriptions
             _permissionsSubscriptions _permissions].
      rewrite removeFirst_push by assumption. now destruct s.
    + cbn [invoke emit with_permissionsSubscriptions
             _permissionsSubscriptions].
      unfold push. apply in_or_app. right. now left.
  - intros Hn. do 2 eexists. split; [reflexivity|].
    cbn [sr_unsubscribe callUnsubscribe].
    rewrite unsubscribe_found.
    + cbn [snd invoke emit with_userSubscriptions _userSubscriptions _user].
      rewrite removeFirst_push by assumption. now destruct s.
    + cbn [invoke emit with_userSubscriptions _userSubscriptions].
      unfold push. apply in_or_app. right. now left.
Qed.

(** X12. Unsubscribing calls no callback and touches nothing but the list
    it addresses: it returns true exactly when the callback is in that
    list, which then loses its first occurrence, and otherwise (also when
    the key is not in the registry) leaves the state as it is; the user,
    the permissions, the session, the trace and the no-session callback
    are never changed. *)
Theorem X12_unsubscribe_quiet sc f s :
  let r := unsubscribeFrom sc f s in
  fst r = (1 <=? count f (observers sc s))%nat /\
  (if fst r
   then observers sc (snd r) = removeFirst f (observers sc s)
   else snd r = s) /\
  trace (snd r) = trace s /\
  _user (snd r) = _user s /\
  _permissions (snd r) = _permissions s /\
  brain_session (snd r) = brain_session s /\
  _noSession (snd r) = _noSession s /\
  _rightsAllSubscriptions (snd r) = _rightsAllSubscriptions s.
Proof.
  cbn zeta.
  destruct (in_dec Nat.eq_dec f (observers sc s)) as [Hin|Hn].
  - assert (Hc : (1 <=? count f (observers sc s))%nat = true)
      by (apply Nat.leb_le; now apply count_In).
    rewrite Hc.
    destruct sc as [| |name id]; cbn [unsubscribeFrom observers] in *.
    + rewrite unsubscribe_found by assumption. repeat split.
    + rewrite permissionsUnsubscribe_all_found by assumption. repeat split.
    + rewrite permissionsUnsubscribe_found by assumption.
      cbn [fst snd]. split; [reflexivity|].
      split; [apply removeObserver_at | repeat split].
  - rewrite unsubscribeFrom_missing by assumption.
    rewrite (count_notin _ _ Hn). repeat split.
Qed.

(** ** What holds in every state the module reaches *)

Lemma step_callable s o :
  callableOrUndefined (_noSession s) = true ->
  callableOrUndefined (_noSession (step s o)) = true.
Proof.
  intros H. destruct (registers o) eqn:E.
  - destruct o as [v|cb name id|cb name id|cb|cb|u| |r|r|u c r];
      try discriminate.
    destruct v; try discriminate. reflexivity.
  - now rewrite step_noSession.
Qed.

Lemma run_callable ops :
  forall s,
    callableOrUndefined (_noSession s) = true ->
    callableOrUndefined (_noSession (run ops s)) = true.
Proof.
  induction ops as [|o r IH]; intros s H; simpl; [assumption|].
  apply IH. now apply step_callable.
Qed.

(** X6. In every state the module reaches, the handler given to
    [body.onNoSession] returns without throwing: it clears the session,
    sets the user to false and the permissions to the empty map, leaves
    the observers registered, and calls the registered no-session
    callback, once, when there is one, and none otherwise. *)
Theorem X6_noSessionHandler_returns ops :
  let s := run ops init in
  exists s1,
    noSessionHandler s = Ok tt s1 /\
    brain_session s1 = None /\
    _user s1 = None /\
    _permissions s1 = [] /\
    frame s s1 /\
    noSessionCalls (newEvents s s1) =
      match _noSession s with JFunction f => [f] | _ => [] end.
Proof.
  cbn zeta. pose proof (run_callable ops init eq_refl) as Hc.
  unfold noSessionHandler. rewrite signed_out_eq.
  cbn [_noSession emits with_permissions with_user with_session].
  destruct (_noSession (run ops init)) eqn:E; try discriminate.
  - eexists. split; [reflexivity|]. repeat split.
    rewrite newEvents_emits by reflexivity.
    rewrite noSessionCalls_app, noSessionCalls_permissionEvents.
    unfold userEvents.
    now rewrite (noSessionCalls_map_Call (fun _ => VUser None)).
  - eexists. split; [reflexivity|]. repeat split.
    rewrite emit_emits, emits_emits, newEvents_emits by reflexivity.
    rewrite !noSessionCalls_app, noSessionCalls_permissionEvents.
    unfold userEvents.
    now rewrite (noSessionCalls_map_Call (fun _ => VUser None)).
Qed.





(** X7. In every state the module reaches, subscribing with a name that
    holds no ':' and no id throws a TypeError, and so does the effect of
    [useRightsAll] for every such permission: the callback is not
    registered and not called, and no handle is returned. *)
Theorem X7_name_without_id_throws ops cb name :
  colonFree name = true ->
  exists s1,
    permissionsSubscribe cb (Some name) None (run ops init) =
      Throw TypeError s1 /\
    useRightsAll_effect cb name (run ops init) = Throw TypeError s1 /\
    trace s1 = trace (run ops init) /\
    _rightsSubscriptions s1 = _rightsSubscriptions (run ops init) /\
    _permissionsSubscriptions s1 = _permissionsSubscriptions (run ops init).
Proof.
  intros Hc.
  destruct (permissionsSubscribe_name_unusable ops cb name Hc)
    as (s1 & E & Ht & Hr & Hp).
  exists s1. unfold useRightsAll_effect. rewrite E. now repeat split.
Qed.

(** ** The hooks *)


(** X11. The effects of [usePermissions] and [useUser] push the setter on
    the observers of all permissions, or of the user, and call it once
    with the current map, or user; for a setter not yet in the list the
    cleanup puts the state back as it was but for that one call. *)
Theorem X11_usePermissions_useUser_effect setter s :
  (exists s1,
     usePermissions_effect setter s =
       Ok (UnsubPermissions setter None None) s1 /\
     _permissionsSubscriptions s1 =
       push (_permissionsSubscriptions s) setter /\
     newEvents s s1 = [Call setter (VPermissions (_permissions s))] /\
     (~ In setter (_permissionsSubscriptions s) ->
      callUnsubscribe (UnsubPermissions setter None None) s1 =
      emits s [Call setter (VPermissions (_permissions s))])) /\
  (exists s1,
     useUser_effect setter s = Ok (UnsubUser setter) s1 /\
     _userSubscriptions s1 = push (_userSubscriptions s) setter /\
     newEvents s s1 = [Call setter (VUser (_user s))] /\
     (~ In setter (_userSubscriptions s) ->
      callUnsubscribe (UnsubUser setter) s1 =
      emits s [Call setter (VUser (_user s))])).
Proof.
  assert (Hp : forall l, In setter (push l setter))
    by (intros l; unfold push; apply in_or_app; right; now left).
  split.
  - eexists. split; [reflexivity|]. split; [reflexivity|].
    split; [unfold invoke; rewrite emit_emits; now apply newEvents_emits|].
    intros Hn. cbn [callUnsubscribe].
    rewrite permissionsUnsubscribe_all_found by apply Hp.
    cbn [snd invoke emit with_permissionsSubscriptions
           _permissionsSubscriptions _permissions].
    rewrite removeFirst_push by assumption. now destruct s.
  - eexists. split; [reflexivity|]. split; [reflexivity|].
    split; [unfold invoke; rewrite emit_emits; now apply newEvents_emits|].
    intros Hn. cbn [callUnsubscribe].
    rewrite unsubscribe_found by apply Hp.
    cbn [snd invoke emit with_userSubscriptions _userSubscriptions _user].
    rewrite removeFirst_push by assumption. now destruct s.
Qed.

(** ** More on decoding *)

Lemma testbit_mod16 v i :
  (0 <= i < 4)%Z -> Z.testbit (v mod 16) i = Z.testbit v i.
Proof.
  intros Hi. change 16%Z with (2 ^ 4)%Z.
  apply Z.mod_pow2_bits_low. lia.
Qed.

Lemma mod16_bits v w :
  Z.testbit v 0 = Z.testbit w 0 -> Z.testbit v 1 = Z.testbit w 1 ->
  Z.testbit v 2 = Z.testbit w 2 -> Z.testbit v 3 = Z.testbit w 3 ->
  (v mod 16 = w mod 16)%Z.
Proof.
  intros H0 H1 H2 H3. apply Z.bits_inj'. intros n Hn.
  destruct (Z.lt_ge_cases n 4) as [Hlt|Hge].
  - rewrite !testbit_mod16 by lia.
    assert (Hc : n = 0%Z \/ n = 1%Z \/ n = 2%Z \/ n = 3%Z) by lia.
    destruct Hc as [->|[->|[->| ->]]]; assumption.
  - change 16%Z with (2 ^ 4)%Z.
    now rewrite !Z.mod_pow2_bits_high by lia.
Qed.

(** X13. Decoding reads the four low bits of the flags and nothing else:
    two values decode to the same rights exactly when they agree modulo
    16, whatever their sign or size. *)
Theorem X13_decode_low_four_bits v w :
  (decodeRights v = decodeRights w <-> (v mod 16 = w mod 16)%Z) /\
  decodeRights v = decodeRights (v mod 16).
Proof.
  assert (Hback : forall a b, (a mod 16 = b mod 16)%Z ->
                              decodeRights a = decodeRights b).
  { intros a b H. rewrite !decodeRights_bits.
    assert (Hb : forall i, (0 <= i < 4)%Z -> Z.testbit a i = Z.testbit b i).
    { intros i Hi.
      rewrite <- (@testbit_mod16 a i Hi), <- (@testbit_mod16 b i Hi).
      now rewrite H. }
    now rewrite (Hb 0%Z), (Hb 1%Z), (Hb 2%Z), (Hb 3%Z) by lia. }
  split; [split|].
  - rewrite !decodeRights_bits. intros H.
    apply mod16_bits;
      destruct (Z.testbit v 0), (Z.testbit v 1), (Z.testbit v 2),
        (Z.testbit v 3), (Z.testbit w 0), (Z.testbit w 1),
        (Z.testbit w 2), (Z.testbit w 3);
      first [reflexivity | discriminate H].
  - apply Hback.
  - apply Hback. symmetry. apply Z.mod_mod. lia.
Qed.




(** ** The variant with one level of permissions *)

Lemma V1_emits_nil s : V1.emits s [] = s.
Proof. destruct s. unfold V1.emits. simpl. now rewrite app_nil_r. Qed.

Lemma V1_emits_emits s a b :
  V1.emits (V1.emits s a) b = V1.emits s (a ++ b)%list.
Proof. unfold V1.emits. simpl. now rewrite app_assoc. Qed.

Lemma V1_newEvents_emits s0 s es :
  V1.trace s = V1.trace s0 -> V1_newEvents s0 (V1.emits s es) = es.
Proof.
  intros H. unfold V1_newEvents, V1.emits. simpl. rewrite H.
  apply skipn_length_app.
Qed.

Lemma V1_fold_invoke (val : V1.state -> V1.value) :
  (forall s es, val (V1.emits s es) = val s) ->
  forall fs s,
    fold_left (fun st f => V1.invoke f (val st) st) fs s =
    V1.emits s (map (fun f => V1.Call f (val s)) fs).
Proof.
  intros Hval fs. induction fs as [|f r IH]; intros s; simpl.
  - now rewrite V1_emits_nil.
  - rewrite IH. unfold V1.invoke. rewrite Hval, V1_emits_emits.
    reflexivity.
Qed.

Lemma V1_set_eq u s :
  V1.set u s =
  V1.emits (V1.with_user s u)
    (map (fun f => V1.Call f (V1.VUser u)) (V1._userSubscriptions s)).
Proof.
  unfold V1.set.
  now rewrite (V1_fold_invoke (fun st => V1.VUser (clone (V1._user st))))
    by reflexivity.
Qed.

Lemma V1_notifyKey_eq k s :
  V1.notifyKey k s =
  V1.emits s
    (map
       (fun f => V1.Call f (V1.scopeValue (V1._permissions s) k))
       (observersAt (V1._rightsSubscriptions s) k)).
Proof.
  unfold V1.notifyKey, observersAt.
  now rewrite (V1_fold_invoke
                 (fun st => V1.scopeValue (V1._permissions st) k))
    by reflexivity.
Qed.

Lemma V1_fold_notifyKey ks :
  forall s,
    fold_left (fun st k => V1.notifyKey k st) ks s =
    V1.emits s
      (flat_map
         (fun k =>
            map
              (fun f =>
                 V1.Call f (V1.scopeValue (V1._permissions s) k))
              (observersAt (V1._rightsSubscriptions s) k))
         ks).
Proof.
  induction ks as [|k r IH]; intros s; simpl.
  - now rewrite V1_emits_nil.
  - rewrite IH, V1_notifyKey_eq, V1_emits_emits. reflexivity.
Qed.

Lemma V1_permissionsSet_eq list s :
  V1.permissionsSet (Some list) s =
  V1.Ok tt
    (V1.emits (V1.with_permissions s (V1.decodePermissions list))
       (V1_permissionEvents (V1.decodePermissions list)
          (V1._permissionsSubscriptions s) (V1._rightsSubscriptions s))).
Proof.
  unfold V1.permissionsSet, V1_permissionEvents.
  rewrite (V1_fold_invoke
             (fun st => V1.VPermissions (clone (V1._permissions st))))
    by reflexivity.
  rewrite V1_fold_notifyKey, V1_emits_emits. reflexivity.
Qed.

Lemma V1_with_permissions_emits s es p :
  V1.with_permissions (V1.emits s es) p =
  V1.emits (V1.with_permissions s p) es.
Proof. reflexivity. Qed.





(** X18. In the one-level variant [update()] hands the [permissions] of
    the user to [permissionsSet] as they are. With a user that has them,
    the user and the decoded permissions are stored, the observers of the
    user then those of the permissions are called, and the promise
    resolves with the user. With a user that has none, the user is
    stored and its observers are called, then [permissionsSet] throws
    once the map is emptied: no observer of the permissions is called
    and the promise stays unsettled. *)
Theorem X18_V1_update id list fields s :
  (exists s1,
     V1.update (Resolved (Truthy (V1.mkUser id (Some list) fields))) s =
       (s1, Resolved (V1.mkUser id (Some list) fields)) /\
     V1._user s1 = Some (V1.mkUser id (Some list) fields) /\
     V1._permissions s1 = V1.decodePermissions list /\
     V1_newEvents s s1 =
       (map
          (fun f =>
             V1.Call f (V1.VUser (Some (V1.mkUser id (Some list) fields))))
          (V1._userSubscriptions s) ++
        V1_permissionEvents (V1.decodePermissions list)
          (V1._permissionsSubscriptions s) (V1._rightsSubscriptions s))%list) /\
  (exists s1,
     V1.update (Resolved (Truthy (V1.mkUser id None fields))) s =
       (s1, Pending) /\
     V1._user s1 = Some (V1.mkUser id None fields) /\
     V1._permissions s1 = [] /\
     V1_newEvents s s1 =
       map (fun f => V1.Call f (V1.VUser (Some (V1.mkUser id None fields))))
         (V1._userSubscriptions s)).
Proof.
  split.
  - cbn [V1.update V1.permissions]. rewrite V1_permissionsSet_eq, V1_set_eq.
    rewrite V1_with_permissions_emits, V1_emits_emits.
    eexists. split; [reflexivity|]. split; [reflexivity|].
    split; [reflexivity|]. now apply V1_newEvents_emits.
  - cbn [V1.update V1.permissions V1.permissionsSet]. rewrite V1_set_eq.
    eexists. split; [reflexivity|]. split; [reflexivity|].
    split; [reflexivity|].
    unfold V1_newEvents.
    cbn [V1.trace V1.with_permissions V1.emits V1.with_user].
    apply skipn_length_app.
Qed.

(** ** The user store *)

Lemma last_values (A : Type) (l : list A) v n :
  last (map Some (l ++ repeat v (S n))) None = Some v.
Proof.
  cbn [repeat]. rewrite repeat_cons, app_assoc, map_app.
  cbn [map]. apply last_last.
Qed.

(** X20. [set] stores the user and calls every observer of the user with
    it, once for each registration and nothing else: the last value an
    observer of the user has been given is the user the store holds, false
    after a sign-out. *)
Theorem X20_user_observers_follow f u s :
  In f (_userSubscriptions s) ->
  _user (set u s) = u /\
  newEvents s (set u s) = userEvents u (_userSubscriptions s) /\
  valuesFor f (newEvents s (set u s)) =
    repeat (VUser u) (count f (_userSubscriptions s)) /\
  lastValue f (trace (set u s)) = Some (VUser (_user (set u s))) /\
  frame s (set u s).
Proof.
  intros Hin. rewrite set_eq.
  split; [reflexivity|].
  split; [now apply newEvents_emits|].
  split; [rewrite newEvents_emits by reflexivity; apply valuesFor_map_Call|].
  split; [|repeat split].
  unfold lastValue. cbn [trace emits with_user _user].
  unfold userEvents. rewrite valuesFor_app, valuesFor_map_Call.
  apply count_In in Hin.
  destruct (count f (_userSubscriptions s)) as [|n]; [lia|].
  apply last_values.
Qed.

End Store.

(* ================================================================== *)
(** * Part III: concrete runs *)
(* ================================================================== *)

(** In the runs below [RIGHTS_ALL_ID] is a 32-digit id with no ':', as
    brain's ids are; nothing depends on its value. *)

(** C3, at the inputs where the code departs from it. From the initial
    state, subscribing callback 1 to
    "docs" with [RIGHTS_ALL_ID] registers it under "docs:" followed by
    that id, while subscribing it to "docs" with no id throws and
    registers nothing: the two calls do not register under the same key.
    Where the call without an id does return (the name "a:b" once
    "a:b" is a key), the callback is pushed under the key "a:b", not under
    "a:b:" followed by [RIGHTS_ALL_ID], is handed the rights of every id
    of the name instead of the rights of one id, and the unsubscribe of
    the handle returned looks under the other key and removes nothing. *)
Lemma C3_counterexample :
  let ALL := "012345679abc4defa0123456789abcde" in
  let with_id := permissionsSubscribe 1 (Some "docs") (Some ALL) init in
  let without_id := permissionsSubscribe 1 (Some "docs") None init in
  let s0 := state_of (permissionsSubscribe 2 (Some "a") (Some "b") init) in
  let named := permissionsSubscribe 1 (Some "a:b") None s0 in
  _rightsSubscriptions (state_of with_id) =
    [("docs:012345679abc4defa0123456789abcde", [1%nat])] /\
  without_id =
    Throw TypeError (with_rightsAllSubscriptions init [("docs", [])]) /\
  _rightsSubscriptions (state_of without_id) = [] /\
  _rightsSubscriptions (state_of with_id) <>
    _rightsSubscriptions (state_of without_id) /\
  _rightsSubscriptions (state_of named) = [("a:b", [2%nat; 1%nat])] /\
  option_map psr_data (returned named) = Some (VRightsAll []) /\
  option_map psr_unsubscribe (returned named) =
    Some (UnsubPermissions 1 (Some "a:b") None) /\
  permissionsUnsubscribe ALL 1 (Some "a:b") None (state_of named) =
    (false, state_of named).
Proof.
  cbn zeta. split; [reflexivity|]. split; [reflexivity|].
  split; [reflexivity|]. split; [discriminate|]. repeat split.
Qed.

(** A run: callback 1 subscribed once to ("docs", "e1") and
    unsubscribed. *)
Lemma C5_witness :
  let ALL := "012345679abc4defa0123456789abcde" in
  let sc := Scoped "docs" (Some "e1") in
  let s := state_of (permissionsSubscribe 1 (Some "docs") (Some "e1") init) in
  wf s = true /\
  In 1%nat (observers ALL sc s) /\
  exists s1,
    unsubscribeFrom ALL sc 1%nat s = (true, s1) /\
    observers ALL sc s1 = removeFirst 1%nat (observers ALL sc s) /\
    count 1%nat (observers ALL sc s) =
      S (count 1%nat (observers ALL sc s1)) /\
    registered sc 1%nat s = S (registered sc 1%nat s1) /\
    (forall u list,
       calls 1%nat (newEvents s (replaced sc u list s)) =
       registered sc 1%nat s) /\
    (forall u list,
       calls 1%nat (newEvents s1 (replaced sc u list s1)) =
       registered sc 1%nat s1) /\
    (registered sc 1%nat s = 1%nat ->
     forall u list,
       calls 1%nat (newEvents s1 (replaced sc u list s1)) = 0%nat) /\
    fst (unsubscribeFrom ALL sc 1%nat s1) =
      (2 <=? count 1%nat (observers ALL sc s))%nat /\
    (count 1%nat (observers ALL sc s) = 1%nat ->
     unsubscribeFrom ALL sc 1%nat s1 = (false, s1)) /\
    wf s1 = true.
Proof.
  cbn zeta. split; [reflexivity|]. split; [simpl; auto|].
  apply (C5_unsubscribe_first_occurrence
           "012345679abc4defa0123456789abcde"
           (Scoped "docs" (Some "e1")) 1%nat
           (state_of (permissionsSubscribe 1 (Some "docs") (Some "e1") init)));
    [reflexivity | simpl; auto].
Defined.

(** C8 on a run: a string is refused; callback 7 is registered, a
    subscription and a sign-out follow, then the session is lost. *)
Lemma C8_witness :
  let ALL := "012345679abc4defa0123456789abcde" in
  let ops :=
    [OpPermissionsSubscribe 1 (Some "docs") (Some "e1");
     OpSignout (Resolved true)] in
  let s1 := run ALL ops (state_of (onNoSession (JFunction 7) init)) in
  typeof (JString "x") <> "function" /\
  existsb registers ops = false /\
  onNoSession (JString "x") init =
    Throw (Error "onNoSession() called with an invalid callback") init /\
  exists s2,
    noSessionHandler s1 = Ok tt s2 /\
    noSessionCalls (newEvents s1 s2) = [7%nat].
Proof.
  cbn zeta.
  destruct (C8_onNoSession "012345679abc4defa0123456789abcde"
              (JString "x") 7
              [OpPermissionsSubscribe 1 (Some "docs") (Some "e1");
               OpSignout (Resolved true)] init) as (H1 & _ & H3).
  split; [discriminate|]. split; [reflexivity|].
  split; [apply H1; discriminate | apply H3; reflexivity].
Defined.

(** A run: callback 1, the only observer of ("docs", "e1"),
    unsubscribes. *)
Lemma C9_witness :
  let ALL := "012345679abc4defa0123456789abcde" in
  let s := run ALL [OpPermissionsSubscribe 1 (Some "docs") (Some "e1")] init in
  let K := unsubscribeKey ALL "docs" (Some "e1") in
  observersAt (_rightsSubscriptions s) K = [1%nat] /\
  exists s1,
    permissionsUnsubscribe ALL 1 (Some "docs") (Some "e1") s = (true, s1) /\
    ~ In K (Obj.keys (_rightsSubscriptions s1)) /\
    Obj.has (_rightsSubscriptions s1) K = false /\
    (forall k, Obj.get (_rightsSubscriptions s1) k <> Some []) /\
    (forall g,
       observersAt
         (_rightsSubscriptions
            (state_of (permissionsSubscribe g (Some "docs") (Some "e1") s1)))
         K = [g]).
Proof.
  cbn zeta.
  destruct (C9_no_empty_list "012345679abc4defa0123456789abcde"
              [OpPermissionsSubscribe 1 (Some "docs") (Some "e1")])
    as [_ H].
  split; [reflexivity|].
  apply (H 1%nat "docs" (Some "e1")). reflexivity.
Defined.


(** X7 on a run: after a subscription to the user, callback 1 subscribes
    to "docs" with no id. *)
Lemma X7_witness :
  let ALL := "012345679abc4defa0123456789abcde" in
  let s := run ALL [OpSubscribe 3] init in
  colonFree "docs" = true /\
  exists s1,
    permissionsSubscribe 1 (Some "docs") None s = Throw TypeError s1 /\
    useRightsAll_effect 1 "docs" s = Throw TypeError s1 /\
    trace s1 = trace s /\
    _rightsSubscriptions s1 = _rightsSubscriptions s /\
    _permissionsSubscriptions s1 = _permissionsSubscriptions s.
Proof.
  cbn zeta. split; [reflexivity|].
  apply (X7_name_without_id_throws "012345679abc4defa0123456789abcde"
           [OpSubscribe 3] 1 "docs").
  reflexivity.
Defined.

(** X9 on a run: callback 1 is new to the three lists. *)
Lemma X9_witness :
  let ALL := "012345679abc4defa0123456789abcde" in
  let s := run ALL [OpSubscribe 3] init in
  ~ In 1%nat (observersAt (_rightsSubscriptions s) (fullKey "docs" "e1")) /\
  ~ In 1%nat (_permissionsSubscriptions init) /\
  ~ In 1%nat (_userSubscriptions init) /\
  (exists h s1,
     permissionsSubscribe 1 (Some "docs") (Some "e1") s = Ok h s1 /\
     callUnsubscribe ALL (psr_unsubscribe h) s1 =
       emits s [Call 1 (scopeValue (_permissions s) "docs" "e1")]) /\
  (exists h s1,
     permissionsSubscribe 1 None None init = Ok h s1 /\
     callUnsubscribe ALL (psr_unsubscribe h) s1 =
       emits init [Call 1 (VPermissions (_permissions init))]) /\
  (exists h s1,
     subscribe 1 init = Ok h s1 /\
     callUnsubscribe ALL (sr_unsubscribe h) s1 =
       emits init [Call 1 (VUser (_user init))]).
Proof.
  cbn zeta.
  destruct (X9_handle_takes_back "012345679abc4defa0123456789abcde"
              [OpSubscribe 3] 1 "docs" "e1" init) as (H1 & H2 & H3).
  split; [intros []|]. split; [intros []|]. split; [intros []|].
  split; [apply H1; intros [] | split; [apply H2 | apply H3]; intros []].
Defined.


(** X11 on a run: the setter 1 is new to both lists. *)
Lemma X11_witness :
  let ALL := "012345679abc4defa0123456789abcde" in
  ~ In 1%nat (_permissionsSubscriptions init) /\
  ~ In 1%nat (_userSubscriptions init) /\
  (exists s1,
     usePermissions_effect 1 init = Ok (UnsubPermissions 1 None None) s1 /\
     callUnsubscribe ALL (UnsubPermissions 1 None None) s1 =
       emits init [Call 1 (VPermissions (_permissions init))]) /\
  (exists s1,
     useUser_effect 1 init = Ok (UnsubUser 1) s1 /\
     callUnsubscribe ALL (UnsubUser 1) s1 =
       emits init [Call 1 (VUser (_user init))]).
Proof.
  cbn zeta.
  destruct (X11_usePermissions_useUser_effect
              "012345679abc4defa0123456789abcde" 1 init)
    as ((s1 & E1 & _ & _ & H1) & (s2 & E2 & _ & _ & H2)).
  split; [intros []|]. split; [intros []|]. split.
  - exists s1. split; [exact E1 | apply H1; intros []].
  - exists s2. split; [exact E2 | apply H2; intros []].
Defined.


(** X20 on a run: callback 1 observes the user, who then signs in. *)
Lemma X20_witness :
  let s := state_of (subscribe 1 init) in
  let u := Some (mkUser "u1" None []) in
  In 1%nat (_userSubscriptions s) /\
  _user (set u s) = u /\
  newEvents s (set u s) = userEvents u (_userSubscriptions s) /\
  valuesFor 1 (newEvents s (set u s)) =
    repeat (VUser u) (count 1 (_userSubscriptions s)) /\
  lastValue 1 (trace (set u s)) = Some (VUser (_user (set u s))) /\
  frame s (set u s).
Proof.
  cbn zeta. split; [now left|].
  apply (X20_user_observers_follow 1 (Some (mkUser "u1" None []))
           (state_of (subscribe 1 init))).
  now left.
Defined.

(** C5, at the input where the code departs from it: callback 2 observes
    ("a", "b"), then callback 1 subscribes to the name "a:b" with no id.
    The call returns, callback 1 being pushed under the key "a:b"; the
    unsubscribe of its handle calls [permissionsUnsubscribe] with the name
    and no id, which looks under "a:b:" followed by [RIGHTS_ALL_ID] and
    returns false at the first call, removing nothing: callback 1 is
    called again at the next replacement of the permissions. *)
Theorem C5_name_only_handle_keeps_callback :
  let ALL := "012345679abc4defa0123456789abcde" in
  let s0 := state_of (permissionsSubscribe 2 (Some "a") (Some "b") init) in
  let sub := permissionsSubscribe 1 (Some "a:b") None s0 in
  let s1 := state_of sub in
  option_map psr_unsubscribe (returned sub) =
    Some (UnsubPermissions 1 (Some "a:b") None) /\
  _rightsSubscriptions s1 = [("a:b", [2%nat; 1%nat])] /\
  permissionsUnsubscribe ALL 1 (Some "a:b") None s1 = (false, s1) /\
  callUnsubscribe ALL (UnsubPermissions 1 (Some "a:b") None) s1 = s1 /\
  calls 1 (newEvents s1 (permissionsSet [] s1)) = 1%nat.
Proof. cbn zeta. repeat split. Qed.

(** C9, at the input where the code departs from it: callback 1 subscribes
    to "docs" with no id. The call throws after it has left an empty list
    under "docs" in [_rightsAllSubscriptions], the registry of the names
    subscribed without an id; no observer is ever under that key and the
    empty list stays, through an unsubscribe with the same arguments and a
    sign-out. *)
Theorem C9_rightsAll_keeps_empty_list :
  let ALL := "012345679abc4defa0123456789abcde" in
  let sub := permissionsSubscribe 1 (Some "docs") None init in
  let s1 := state_of sub in
  let s2 :=
    run ALL
      [OpPermissionsUnsubscribe 1 (Some "docs") None;
       OpSignout (Resolved true)] s1 in
  returned sub = None /\
  Obj.get (_rightsAllSubscriptions s1) "docs" = Some [] /\
  permissionsUnsubscribe ALL 1 (Some "docs") None s1 = (false, s1) /\
  Obj.get (_rightsAllSubscriptions s2) "docs" = Some [].
Proof. cbn zeta. repeat split. Qed.
